(** * pz5: calorie lookup client for Open Food Facts

    A shallow embedding of [src/pz5.py] and the properties of its three
    functional parts: the field extractor [extract_kcal], the detail
    formatter [format_product_details] and the API client
    ([get_product_by_barcode], [search_products]), plus the three
    [MainWindow] handlers that connect them.

    Python values are dynamically typed, so the embedding works on one type
    of JSON values and every operation that Python can refuse (attribute
    lookup on a value without that attribute, subscripting a missing key,
    [len] of a number) returns in an exception monad. *)

From Stdlib Require Import ZArith String Ascii PrimFloat.
From stdpp Require Import gmap strings list fin_maps pretty.

Local Open Scope string_scope.
Local Open Scope list_scope.
Set Warnings "-register-all".

(** ** Python values *)

(** What [json.loads] produces: [None], [bool], [int] (unbounded), [float]
    (binary64), [str], [list], and [dict] with string keys.  A [str] is held
    as the bytes of its UTF-8 encoding. *)
Inductive value : Type :=
| VNone
| VBool (b : bool)
| VInt (n : Z)
| VFloat (f : float)
| VStr (s : string)
| VList (l : list value)
| VDict (d : gmap string value).

(** The exceptions the program can meet. *)
Inductive exn : Type :=
| AttributeError
| KeyError (k : value)
| IndexError
| TypeError
| HTTPError (status : Z)
| ConnectionError
| JSONDecodeError.

Inductive result (A : Type) : Type :=
| Ok (a : A)
| Raise (e : exn).
Arguments Ok {A} a.
Arguments Raise {A} e.

#[global] Instance result_ret : MRet result := @Ok.
#[global] Instance result_bind : MBind result :=
  λ A B f m, match m with Ok a => f a | Raise e => Raise e end.

(** [v is None] *)
Definition is_none (v : value) : bool :=
  match v with VNone => true | _ => false end.

(** [bool(v)]: the truth value Python's [or], [not] and [if] test. *)
Definition truthy (v : value) : bool :=
  match v with
  | VNone => false
  | VBool b => b
  | VInt n => negb (n =? 0)%Z
  | VFloat f => negb (PrimFloat.eqb f 0%float)
  | VStr s => negb (String.eqb s "")
  | VList l => negb (bool_decide (l = []))
  | VDict d => negb (bool_decide (d = ∅))
  end.

(** [a or b]; the operands here have no effects, so both are values. *)
Definition py_or (a b : value) : value := if truthy a then a else b.

(** [o.get]: attribute lookup, which only a [dict] answers; the bound
    method then never raises, returning [dflt] for a missing key. *)
Definition attr_get (o : value) : result (string → value → value) :=
  match o with
  | VDict d => Ok (λ k dflt, default dflt (d !! k))
  | _ => Raise AttributeError
  end.

(** [o.get(k, dflt)]; [o.get(k)] is [py_get o k VNone]. *)
Definition py_get (o : value) (k : string) (dflt : value) : result value :=
  get ← attr_get o; mret (get k dflt).

(** [d[k]] on a dict this program built itself. *)
Definition py_getitem (d : gmap string value) (k : string) : result value :=
  match d !! k with
  | Some v => Ok v
  | None => Raise (KeyError (VStr k))
  end.

(** [k in d] *)
Definition py_in (k : string) (d : gmap string value) : bool :=
  bool_decide (is_Some (d !! k)).

(** [s.endswith(suffix)] *)
Definition endswith (s suffix : string) : bool :=
  let n := String.length s in
  let m := String.length suffix in
  (m <=? n)%nat && String.eqb (String.substring (n - m) m s) suffix.

(** The line feed of ["\n".join(lines)]. *)
Definition newline : string := String (ascii_of_nat 10) EmptyString.

(** *** Sized and iterable values *)

(** A byte [10xxxxxx] continues a UTF-8 sequence. *)
Definition is_continuation (c : ascii) : bool :=
  match c with Ascii _ _ _ _ _ _ b6 b7 => b7 && negb b6 end.

(** Right-to-left split: the continuation bytes that open [s], and the
    code points after them. *)
Fixpoint split_points (s : string) : string * list string :=
  match s with
  | EmptyString => (EmptyString, [])
  | String c rest =>
      let '(pending, points) := split_points rest in
      if is_continuation c then (String c pending, points)
      else (EmptyString, String c pending :: points)
  end.

(** The characters of a [str], each as a one-character [str]. *)
Definition code_points (s : string) : list string :=
  let '(pending, points) := split_points s in
  match pending with EmptyString => points | _ => pending :: points end.

(** [len(v)] *)
Definition py_len (v : value) : result nat :=
  match v with
  | VList l => Ok (length l)
  | VStr s => Ok (length (code_points s))
  | VDict d => Ok (size d)
  | _ => Raise TypeError
  end.

(** The elements [for x in v] visits.  A dict yields its keys; the program
    never gets past the first of them, so their order is not modelled. *)
Definition py_iter (v : value) : result (list value) :=
  match v with
  | VList l => Ok l
  | VStr s => Ok (VStr <$> code_points s)
  | VDict d => Ok (VStr <$> (map_to_list d).*1)
  | _ => Raise TypeError
  end.

(** [v[i]] for an index [0 <= i]. *)
Definition py_index (v : value) (i : nat) : result value :=
  match v with
  | VList l => match l !! i with Some x => Ok x | None => Raise IndexError end
  | VStr s =>
      match code_points s !! i with
      | Some c => Ok (VStr c)
      | None => Raise IndexError
      end
  | VDict d => Raise (KeyError (VInt (Z.of_nat i)))
  | _ => Raise TypeError
  end.

(** ** Field extractor *)

Module Extractor.

(** The dict literal [data] of [extract_kcal], given the bound method
    [get = nutriments.get]; entries in source order. *)
Definition data (get : string → value) : list (string * value) :=
  [ ("kcal_100g", py_or (get "energy-kcal_100g") (get "energy-kcal_value"));
    ("protein_100g", get "proteins_100g");
    ("fat_100g", get "fat_100g");
    ("carbs_100g", get "carbohydrates_100g");
    ("kcal_serving", get "energy-kcal_serving");
    ("protein_serving", get "proteins_serving");
    ("fat_serving", get "fat_serving");
    ("carbs_serving", get "carbohydrates_serving") ].

(** [{k: v for k, v in data.items() if v is not None}] *)
Definition not_none_items (items : list (string * value)) : gmap string value :=
  list_to_map (filter (λ kv : string * value, is_none kv.2 = false) items).

Definition extract_kcal (nutriments : value) : result (gmap string value) :=
  get ← attr_get nutriments;
  mret (not_none_items (data (λ k, get k VNone))).

End Extractor.
Export Extractor.

(** ** Detail formatter *)

Module Formatter.
Section WithRepr.

(** [repr] of the values whose text is the interpreter's business and that
    the program only passes through: floats (shortest round-trip digits),
    lists and dicts. *)
Variable py_repr : value → string.

(** [str(v)], which is also what an f-string field [{v}] inserts. *)
Definition py_str (v : value) : string :=
  match v with
  | VNone => "None"
  | VBool true => "True"
  | VBool false => "False"
  | VInt n => pretty n
  | VStr s => s
  | VFloat _ | VList _ | VDict _ => py_repr v
  end.

Definition dash : value := VStr "—".

(** [if key in nutr: lines.append(f"{label}{nutr[key]}")] *)
Definition nutrient_line (nutr : gmap string value) (key label : string)
    (lines : list string) : result (list string) :=
  if py_in key nutr
  then v ← py_getitem nutr key; mret (lines ++ [label +:+ py_str v])
  else mret lines.

(** [any(k.endswith("_serving") for k in nutr.keys())]; the answer does not
    depend on the order in which the keys are visited. *)
Definition any_serving (nutr : gmap string value) : bool :=
  existsb (λ k, endswith k "_serving") (map_to_list nutr).*1.

(** The list [lines] of [format_product_details] as it stands before the
    final join. *)
Definition format_product_lines (product : value) : result (list string) :=
  v ← py_get product "product_name" VNone; let name := py_or v dash in
  v ← py_get product "brands" VNone; let brand := py_or v dash in
  v ← py_get product "code" VNone; let code := py_or v dash in
  v ← py_get product "quantity" VNone; let quantity := py_or v dash in
  v ← py_get product "serving_size" VNone; let serving := py_or v dash in
  nutriments ← py_get product "nutriments" (VDict ∅);
  nutr ← extract_kcal nutriments;
  let lines :=
    [ "Название: " +:+ py_str name;
      "Бренд: " +:+ py_str brand;
      "Штрихкод: " +:+ py_str code;
      "Упаковка: " +:+ py_str quantity;
      "Порция: " +:+ py_str serving;
      "";
      "Питательные вещества:" ] in
  if bool_decide (nutr = ∅)
  then mret (lines ++ ["  данные о БЖУ не найдены"])
  else
    lines ← nutrient_line nutr "kcal_100g" "  Калории на 100 г: " lines;
    lines ← nutrient_line nutr "protein_100g" "  Белок на 100 г: " lines;
    lines ← nutrient_line nutr "fat_100g" "  Жиры на 100 г: " lines;
    lines ← nutrient_line nutr "carbs_100g" "  Углеводы на 100 г: " lines;
    if any_serving nutr
    then
      let lines := lines ++ [""] in
      let lines := lines ++ ["На порцию:"] in
      lines ← nutrient_line nutr "kcal_serving" "  Калории на порцию: " lines;
      lines ← nutrient_line nutr "protein_serving" "  Белок на порцию: " lines;
      lines ← nutrient_line nutr "fat_serving" "  Жиры на порцию: " lines;
      nutrient_line nutr "carbs_serving" "  Углеводы на порцию: " lines
    else mret lines.

Definition format_product_details (product : value) : result string :=
  lines ← format_product_lines product;
  mret (String.concat newline lines).

End WithRepr.
End Formatter.
Export Formatter.

(** ** API client *)

Module Api.

Definition BASE : string := "https://world.openfoodfacts.org".

Definition HEADERS : list (string * string) :=
  [ ("User-Agent",
     "Darcons-Trade-CalorieFetcher/1.0 (+https://darcons-trade.example)") ].

(** The arguments of one [requests.get] call. *)
Record request : Type := {
  url : string;
  headers : list (string * string);
  params : list (string * value);
  timeout : Z
}.

(** What the program reads of a [requests.Response]: the status and the
    outcome of [r.json()], which raises on a body that is not JSON. *)
Record response : Type := {
  status_code : Z;
  json : result value
}.

(** [r.raise_for_status()]: client (4xx) and server (5xx) statuses raise. *)
Definition raise_for_status (r : response) : result unit :=
  if bool_decide (400 ≤ status_code r < 600)%Z
  then Raise (HTTPError (status_code r))
  else Ok ().

Section WithNetwork.

(** The network: what [requests.get] answers to a request, or the
    transport exception it raises. *)
Variable requests_get : request → result response.

Definition get_product_by_barcode (barcode : string) (fields : option string)
    (lang country : string) : result value :=
  let fields :=
    match fields with
    | None =>
        "code,product_name,nutriments,brands,quantity,serving_size,language,lang,lc"
    | Some f => f
    end in
  let url := BASE +:+ "/api/v2/product/" +:+ barcode in
  let params :=
    [ ("fields", VStr fields); ("lc", VStr lang); ("cc", VStr country) ] in
  r ← requests_get
        {| url := url; headers := HEADERS; params := params; timeout := 20 |};
  raise_for_status r;;
  json r.

Definition search_products (query : string) (page_size : Z)
    (fields : option string) (lang country : string) : result value :=
  let fields :=
    match fields with
    | None =>
        "code,product_name,brands,nutriments,quantity,serving_size,ecoscore_grade"
    | Some f => f
    end in
  let url := BASE +:+ "/api/v2/search" in
  let params :=
    [ ("search_terms", VStr query);
      ("fields", VStr fields);
      ("page_size", VInt page_size);
      ("lc", VStr lang);
      ("cc", VStr country) ] in
  r ← requests_get
        {| url := url; headers := HEADERS; params := params; timeout := 20 |};
  raise_for_status r;;
  json r.

End WithNetwork.
End Api.
Export Api.

(** ** Presentation shell: the three handlers of [MainWindow] *)

Module Gui.

(** A [QMessageBox.information(self, title, text)] shown to the user. *)
Inductive dialog : Type :=
| Information (title text : string).

(** The part of the window the handlers read and write: the attribute
    [current_products], the text of [details_text], the row count and the
    cells of [table] (a cell holds the argument its [QTableWidgetItem] was
    built from), and the dialogs shown so far. *)
Record MainWindow : Type := {
  current_products : value;
  details_text : string;
  table_rows : nat;
  table_items : gmap (nat * nat) value;
  dialogs : list dialog
}.

(** [MainWindow.__init__] leaves an empty result list and an empty view. *)
Definition init : MainWindow :=
  {| current_products := VList []; details_text := ""; table_rows := 0;
     table_items := ∅; dialogs := [] |}.

Definition set_current_products (v : value) (w : MainWindow) : MainWindow :=
  {| current_products := v; details_text := details_text w;
     table_rows := table_rows w; table_items := table_items w;
     dialogs := dialogs w |}.

(** [details_text.clear()] is [setPlainText] of the empty text. *)
Definition setPlainText (s : string) (w : MainWindow) : MainWindow :=
  {| current_products := current_products w; details_text := s;
     table_rows := table_rows w; table_items := table_items w;
     dialogs := dialogs w |}.

Definition clearContents (w : MainWindow) : MainWindow :=
  {| current_products := current_products w; details_text := details_text w;
     table_rows := table_rows w; table_items := ∅; dialogs := dialogs w |}.

(** [table.setRowCount(n)]: cells of removed rows go with their rows. *)
Definition setRowCount (n : nat) (w : MainWindow) : MainWindow :=
  {| current_products := current_products w; details_text := details_text w;
     table_rows := n;
     table_items := filter (λ cell : nat * nat * value, cell.1.1 < n) (table_items w);
     dialogs := dialogs w |}.

(** [table.setItem(row, column, QTableWidgetItem(v))] *)
Definition setItem (row column : nat) (v : value) (w : MainWindow) : MainWindow :=
  {| current_products := current_products w; details_text := details_text w;
     table_rows := table_rows w;
     table_items := <[(row, column) := v]> (table_items w);
     dialogs := dialogs w |}.

Definition information (title text : string) (w : MainWindow) : MainWindow :=
  {| current_products := current_products w; details_text := details_text w;
     table_rows := table_rows w; table_items := table_items w;
     dialogs := dialogs w ++ [Information title text] |}.

(** A handler runs on the window and either returns or raises; what it
    wrote before raising stays written. *)
Definition gui (A : Type) : Type := MainWindow → MainWindow * result A.

#[global] Instance gui_ret : MRet gui := λ A a w, (w, Ok a).
#[global] Instance gui_bind : MBind gui :=
  λ A B f m w,
    match m w with
    | (w', Ok a) => f a w'
    | (w', Raise e) => (w', Raise e)
    end.

Definition lift {A} (r : result A) : gui A := λ w, (w, r).
Definition modify (f : MainWindow → MainWindow) : gui unit := λ w, (f w, Ok ()).
Definition read {A} (f : MainWindow → A) : gui A := λ w, (w, Ok (f w)).

Section WithRuntime.

Variable py_repr : value → string.
Variable requests_get : request → result response.

Definition search_by_barcode (barcode : string) : gui unit :=
  modify (setPlainText "");;
  modify clearContents;;
  modify (setRowCount 0);;
  data ← lift (get_product_by_barcode requests_get barcode None "ru" "ru");
  product ← lift (py_get data "product" VNone);
  if negb (truthy product)
  then modify (information "Результат" "Продукт не найден.")
  else
    details ← lift (format_product_details py_repr product);
    modify (setPlainText details).

(** One turn of the loop [for row, p in enumerate(products)]. *)
Definition fill_row (row : nat) (p : value) : gui unit :=
  v ← lift (py_get p "code" VNone); let code := py_or v (VStr "") in
  v ← lift (py_get p "product_name" VNone); let name := py_or v (VStr "") in
  v ← lift (py_get p "brands" VNone); let brand := py_or v (VStr "") in
  nutriments ← lift (py_get p "nutriments" (VDict ∅));
  nutr ← lift (extract_kcal nutriments);
  let kcal_100g := default (VStr "") (nutr !! "kcal_100g") in
  modify (setItem row 0 code);;
  modify (setItem row 1 name);;
  modify (setItem row 2 brand);;
  modify (setItem row 3 (VStr (py_str py_repr kcal_100g))).

Fixpoint fill_rows (row : nat) (products : list value) : gui unit :=
  match products with
  | [] => mret ()
  | p :: rest => fill_row row p;; fill_rows (S row) rest
  end.

Definition search_by_name (name : string) : gui unit :=
  modify (setPlainText "");;
  modify clearContents;;
  modify (setRowCount 0);;
  modify (set_current_products (VList []));;
  data ← lift (search_products requests_get name 10 None "ru" "ru");
  products ← lift (py_get data "products" (VList []));
  if negb (truthy products)
  then modify (information "Результат" "Ничего не найдено.")
  else
    modify (set_current_products products);;
    n ← lift (py_len products);
    modify (setRowCount n);;
    items ← lift (py_iter products);
    fill_rows 0 items.

(** [0 <= row < len(...)] does not reach [len] when [row] is negative. *)
Definition on_table_double_clicked (row column : Z) : gui unit :=
  if bool_decide (0 ≤ row)%Z
  then
    products ← read current_products;
    n ← lift (py_len products);
    if bool_decide (row < Z.of_nat n)%Z
    then
      product ← lift (py_index products (Z.to_nat row));
      details ← lift (format_product_details py_repr product);
      modify (setPlainText details)
    else mret ()
  else mret ().

End WithRuntime.
End Gui.
Export Gui.

(** ** Vocabulary of the statements *)

(** The NutrientSummary a product record yields: what [format_product_details]
    hands to the line-building part, [extract_kcal(product.get("nutriments", {}))]. *)
Definition nutrient_summary (product : value) : result (gmap string value) :=
  nutriments ← py_get product "nutriments" (VDict ∅);
  extract_kcal nutriments.

(** A source value that is there: the key is in the map and not null. *)
Definition present (d : gmap string value) (k : string) : option value :=
  match d !! k with
  | Some v => if is_none v then None else Some v
  | None => None
  end.

(** Output identifier and label of each nutrient line, in display order. *)
Definition per_100g_fields : list (string * string) :=
  [ ("kcal_100g", "  Калории на 100 г: ");
    ("protein_100g", "  Белок на 100 г: ");
    ("fat_100g", "  Жиры на 100 г: ");
    ("carbs_100g", "  Углеводы на 100 г: ") ].

Definition per_serving_fields : list (string * string) :=
  [ ("kcal_serving", "  Калории на порцию: ");
    ("protein_serving", "  Белок на порцию: ");
    ("fat_serving", "  Жиры на порцию: ");
    ("carbs_serving", "  Углеводы на порцию: ") ].

Definition output_keys : list string :=
  (per_100g_fields ++ per_serving_fields).*1.

(** Some field of the list is in the summary. *)
Definition some_field (fields : list (string * string))
    (nutr : gmap string value) : bool :=
  existsb (λ f : string * string, py_in f.1 nutr) fields.

Definition no_data_line : string := "  данные о БЖУ не найдены".
Definition serving_header : string := "На порцию:".

(** A line that opens with the label of one of [fields]. *)
Definition has_label (fields : list (string * string)) (line : string) : bool :=
  existsb (λ f : string * string, String.prefix f.2 line) fields.

(** A line that opens with one of the eight nutrient labels. *)
Definition is_nutrient_line (line : string) : bool :=
  has_label (per_100g_fields ++ per_serving_fields) line.

(** The keys of the five header fields, in display order. *)
Definition header_keys : list string :=
  [ "product_name"; "brands"; "code"; "quantity"; "serving_size" ].

Section Layout.

Variable py_repr : value → string.

(** One line per field of [fields] that the summary holds, in the order of
    [fields], the label followed by the value. *)
Definition section_lines (fields : list (string * string))
    (nutr : gmap string value) : list string :=
  omap (λ f : string * string, (λ v, f.2 +:+ py_str py_repr v) <$> nutr !! f.1)
    fields.

(** The text of a header field: the value when there is a truthy one, the
    dash otherwise. *)
Definition header_text (d : gmap string value) (k : string) : string :=
  match d !! k with
  | Some v => if truthy v then py_str py_repr v else "—"
  | None => "—"
  end.

Definition header_lines (d : gmap string value) : list string :=
  [ "Название: " +:+ header_text d "product_name";
    "Бренд: " +:+ header_text d "brands";
    "Штрихкод: " +:+ header_text d "code";
    "Упаковка: " +:+ header_text d "quantity";
    "Порция: " +:+ header_text d "serving_size";
    "";
    "Питательные вещества:" ].

(** The nutrients section as the specification words it. *)
Definition nutrient_section (nutr : gmap string value) : list string :=
  if bool_decide (nutr = ∅) then [no_data_line]
  else
    section_lines per_100g_fields nutr
    ++ (if some_field per_serving_fields nutr
        then [""; serving_header] ++ section_lines per_serving_fields nutr
        else []).

End Layout.

(** The request of a lookup with the default arguments of the handlers. *)
Definition lookup_request (barcode : string) : request :=
  {| url := BASE +:+ "/api/v2/product/" +:+ barcode;
     headers := HEADERS;
     params :=
       [ ("fields",
          VStr "code,product_name,nutriments,brands,quantity,serving_size,language,lang,lc");
         ("lc", VStr "ru"); ("cc", VStr "ru") ];
     timeout := 20 |}.

(** The request of a text search with the default fields. *)
Definition search_request (query : string) (page_size : Z) : request :=
  {| url := BASE +:+ "/api/v2/search";
     headers := HEADERS;
     params :=
       [ ("search_terms", VStr query);
         ("fields",
          VStr "code,product_name,brands,nutriments,quantity,serving_size,ecoscore_grade");
         ("page_size", VInt page_size);
         ("lc", VStr "ru"); ("cc", VStr "ru") ];
     timeout := 20 |}.

(** The view as both search handlers leave it before they call the API:
    no details, no cells, no rows. *)
Definition cleared (w : MainWindow) : MainWindow :=
  setRowCount 0 (clearContents (setPlainText "" w)).

(** *** Sample inputs *)

(** The samples hold strings and integers only, whose text [py_str] fixes;
    this stands in for the interpreter's [repr], which they never reach. *)
Definition sample_repr : value → string := λ _, "".

(** A network that answers every request with status 200 and this body. *)
Definition answering (body : value) : request → result response :=
  λ _, Ok {| status_code := 200; json := Ok body |}.

Definition cola_nutriments : gmap string value :=
  {[ "energy-kcal_100g" := VInt 42; "carbohydrates_100g" := VInt 11;
     "energy-kcal_serving" := VInt 139 ]}.

Definition cola : gmap string value :=
  {[ "code" := VStr "5449000000996"; "product_name" := VStr "Coca-Cola";
     "nutriments" := VDict cola_nutriments ]}.

Definition cola_summary : gmap string value :=
  {[ "kcal_100g" := VInt 42; "carbs_100g" := VInt 11;
     "kcal_serving" := VInt 139 ]}.

Definition curd : gmap string value :=
  {[ "product_name" := VStr "";
     "nutriments" := VDict {[ "proteins_100g" := VInt 16 ]} ]}.

Definition curd_summary : gmap string value :=
  {[ "protein_100g" := VInt 16 ]}.

Definition lookup_body : gmap string value := {[ "product" := VDict cola ]}.

Definition water : gmap string value := {[ "product_name" := VStr "Water" ]}.

Definition empty_search_body : gmap string value := {[ "products" := VList [] ]}.

(** ** Vocabulary of the further statements *)

(** Source key and output identifier of the seven fields that
    [extract_kcal] copies under a new name. *)
Definition plain_fields : list (string * string) :=
  [ ("proteins_100g", "protein_100g");
    ("fat_100g", "fat_100g");
    ("carbohydrates_100g", "carbs_100g");
    ("energy-kcal_serving", "kcal_serving");
    ("proteins_serving", "protein_serving");
    ("fat_serving", "fat_serving");
    ("carbohydrates_serving", "carbs_serving") ].

(** The nine keys [extract_kcal] looks up. *)
Definition source_keys : list string :=
  [ "energy-kcal_100g"; "energy-kcal_value" ] ++ plain_fields.*1.

(** The six keys [format_product_details] looks up in a product. *)
Definition read_keys : list string := header_keys ++ [ "nutriments" ].

(** The [nutriments] entry is missing or a dict. *)
Definition nutriments_ok (d : gmap string value) : bool :=
  match d !! "nutriments" with
  | None | Some (VDict _) => true
  | Some _ => false
  end.

(** A product record the formatter accepts. *)
Definition formattable (product : value) : bool :=
  match product with
  | VDict d => nutriments_ok d
  | _ => false
  end.

(** A value that is a [str] or falsy: what [v or ""] turns into a [str]. *)
Definition text_or_falsy (v : value) : bool :=
  match v with
  | VStr _ => true
  | _ => negb (truthy v)
  end.

(** A product record whose code, name and brand are texts (or missing, or
    falsy) and whose summary can be built: one the result table can show. *)
Definition listable (p : value) : bool :=
  match p with
  | VDict d =>
      text_or_falsy (default VNone (d !! "code"))
      && text_or_falsy (default VNone (d !! "product_name"))
      && text_or_falsy (default VNone (d !! "brands"))
      && nutriments_ok d
  | _ => false
  end.

(** The text under a key, empty when the key is missing or holds no text. *)
Definition shown_text (d : gmap string value) (k : string) : string :=
  match d !! k with
  | Some (VStr s) => s
  | _ => ""
  end.

Section Rows.

Variable py_repr : value → string.

(** The text of the calories column: the summary's [kcal_100g], or nothing. *)
Definition kcal_text (p : value) : string :=
  match nutrient_summary p with
  | Ok nutr =>
      match nutr !! "kcal_100g" with
      | Some v => py_str py_repr v
      | None => ""
      end
  | Raise _ => ""
  end.

(** The four cells of the table row of a product: code, name, brand,
    calories per 100 g. *)
Definition row_cells (p : value) : list value :=
  match p with
  | VDict d =>
      [ VStr (shown_text d "code"); VStr (shown_text d "product_name");
        VStr (shown_text d "brands"); VStr (kcal_text p) ]
  | _ => []
  end.

End Rows.

(** A network on which every request fails with this status. *)
Definition failing (status : Z) : request → result response :=
  λ _, Ok {| status_code := status; json := Raise JSONDecodeError |}.

Definition serving_only : gmap string value :=
  {[ "nutriments" := VDict {[ "proteins_serving" := VInt 7 ]} ]}.

Definition serving_only_summary : gmap string value :=
  {[ "protein_serving" := VInt 7 ]}.

Definition search_body : gmap string value :=
  {[ "products" := VList [ VDict cola; VDict curd ] ]}.

Definition broken_search_body : gmap string value :=
  {[ "products" := VList [ VDict cola; VNone; VDict curd ] ]}.

(** Key and label of the five header lines, in display order. *)
Definition header_fields : list (string * string) :=
  [ ("product_name", "Название: ");
    ("brands", "Бренд: ");
    ("code", "Штрихкод: ");
    ("quantity", "Упаковка: ");
    ("serving_size", "Порция: ") ].

Definition milk : gmap string value :=
  {[ "product_name" := VStr "Milk"; "nutriments" := VStr "n/a" ]}.

(** ** The extractor, key by key *)

Lemma not_none_items_lookup (items : list (string * value)) (k : string) :
  NoDup items.*1 →
  not_none_items items !! k
  = (list_to_map items : gmap string value) !! k
      ≫= (λ v, if is_none v then None else Some v).
Proof.
  unfold not_none_items. induction items as [|[k0 v0] items IH]; intros Hnd.
  - rewrite filter_nil. cbn. by rewrite lookup_empty.
  - apply NoDup_cons in Hnd as [Hk0 Hnd]. specialize (IH Hnd).
    rewrite filter_cons. cbn [list_to_map foldr snd uncurry] in *.
    destruct (decide (k = k0)) as [->|Hne].
    + rewrite lookup_insert_eq. cbn.
      destruct (decide (is_none v0 = false)) as [Hv|Hv].
      * cbn. rewrite lookup_insert_eq. by rewrite Hv.
      * rewrite IH. apply not_false_is_true in Hv. rewrite Hv.
        by rewrite (not_elem_of_list_to_map_1 _ _ Hk0).
    + rewrite (lookup_insert_ne _ k0 k) by done.
      destruct (decide (is_none v0 = false)); [|done].
      cbn. by rewrite lookup_insert_ne.
Qed.

Lemma data_keys (get : string → value) : (data get).*1 = output_keys.
Proof. reflexivity. Qed.

Lemma output_keys_NoDup : NoDup output_keys.
Proof. by apply (bool_decide_unpack _); vm_compute. Qed.

(** What the summary holds under each key, read off the source map. *)
Lemma extract_kcal_lookup (d nutr : gmap string value) (k : string) :
  extract_kcal (VDict d) = Ok nutr →
  nutr !! k
  = (list_to_map (data (λ k, default VNone (d !! k))) : gmap string value) !! k
      ≫= (λ v, if is_none v then None else Some v).
Proof.
  intros [= <-]. apply not_none_items_lookup.
  rewrite data_keys. apply output_keys_NoDup.
Qed.

Lemma keep_default (d : gmap string value) (k : string) :
  (if is_none (default VNone (d !! k)) then None
   else Some (default VNone (d !! k))) = present d k.
Proof. unfold present. by destruct (d !! k). Qed.

(** The seven plain fields are renamed copies of the values that are there;
    the energy field is what [or] leaves of the two spellings. *)
Lemma extract_kcal_fields (d nutr : gmap string value) :
  extract_kcal (VDict d) = Ok nutr →
  nutr !! "kcal_100g"
  = (let v := py_or (default VNone (d !! "energy-kcal_100g"))
                    (default VNone (d !! "energy-kcal_value")) in
     if is_none v then None else Some v)
  ∧ nutr !! "protein_100g" = present d "proteins_100g"
  ∧ nutr !! "fat_100g" = present d "fat_100g"
  ∧ nutr !! "carbs_100g" = present d "carbohydrates_100g"
  ∧ nutr !! "kcal_serving" = present d "energy-kcal_serving"
  ∧ nutr !! "protein_serving" = present d "proteins_serving"
  ∧ nutr !! "fat_serving" = present d "fat_serving"
  ∧ nutr !! "carbs_serving" = present d "carbohydrates_serving".
Proof.
  intros Hx. repeat split;
    rewrite (extract_kcal_lookup _ _ _ Hx); cbn [data list_to_map foldr uncurry];
    repeat (rewrite lookup_insert_ne by done); rewrite lookup_insert_eq;
    cbn [mbind option_bind]; try apply keep_default; done.
Qed.

(** A truthy primary energy value is the one the summary holds; without a
    primary entry the fallback spelling is used. *)
Lemma extract_kcal_energy (d nutr : gmap string value) :
  extract_kcal (VDict d) = Ok nutr →
  (∀ v, d !! "energy-kcal_100g" = Some v → truthy v = true →
     nutr !! "kcal_100g" = Some v)
  ∧ (d !! "energy-kcal_100g" = None →
     nutr !! "kcal_100g" = present d "energy-kcal_value").
Proof.
  intros Hx. destruct (extract_kcal_fields _ _ Hx) as [-> _]. split.
  - intros v -> Hv. cbn [default from_option id]. unfold py_or. rewrite Hv.
    by destruct v.
  - intros ->. cbn [default from_option id]. unfold py_or. cbn [truthy].
    apply keep_default.
Qed.

(** The summary has no key outside the eight output identifiers, and no
    null under any key. *)
Lemma extract_kcal_keys (n : value) (nutr : gmap string value) (k : string) :
  extract_kcal n = Ok nutr → is_Some (nutr !! k) → k ∈ output_keys.
Proof.
  destruct n; try discriminate. intros [= <-] [v Hv].
  apply elem_of_list_to_map_2 in Hv.
  apply list_elem_of_filter in Hv as [_ Hv].
  rewrite <- (data_keys (λ k, default VNone (d !! k))).
  apply list_elem_of_fmap. by exists (k, v).
Qed.

Lemma extract_kcal_not_none (n : value) (nutr : gmap string value)
    (k : string) (v : value) :
  extract_kcal n = Ok nutr → nutr !! k = Some v → is_none v = false.
Proof.
  destruct n; try discriminate. intros [= <-] Hv.
  apply elem_of_list_to_map_2 in Hv.
  by apply list_elem_of_filter in Hv as [Hv _].
Qed.

(** On a summary, the suffix test over the keys finds exactly the four
    per-serving identifiers. *)
Lemma any_serving_spec (n : value) (nutr : gmap string value) :
  extract_kcal n = Ok nutr →
  any_serving nutr = some_field per_serving_fields nutr.
Proof.
  intros Hx. apply eq_true_iff_eq. unfold any_serving, some_field.
  rewrite !existsb_exists. split.
  - intros (k & Hk & Hs). apply list_elem_of_In in Hk.
    apply list_elem_of_fmap in Hk as ([k' v] & -> & Hk).
    apply elem_of_map_to_list in Hk. cbn in Hs.
    assert (Hin : k' ∈ output_keys)
      by (eapply extract_kcal_keys; [exact Hx | by exists v]).
    assert (Hp : py_in k' nutr = true)
      by (apply bool_decide_eq_true; by exists v).
    unfold output_keys in Hin. cbn in Hin.
    repeat (apply elem_of_cons in Hin as [->|Hin];
            [ first [ discriminate Hs
                    | eexists (_, _); split; [|exact Hp]; cbn; eauto 10 ]
            | ]).
    by apply elem_of_nil in Hin.
  - intros ([k l] & Hk & Hp). cbn in Hp.
    apply bool_decide_eq_true in Hp as [v Hv].
    exists k. split.
    + apply list_elem_of_In, list_elem_of_fmap. exists (k, v).
      split; [done|]. by apply elem_of_map_to_list.
    + cbn in Hk. destruct Hk as [[= <- <-]|[[= <- <-]|[[= <- <-]|[[= <- <-]|[]]]]];
        reflexivity.
Qed.

(** ** The formatter against its layout *)

Lemma py_get_dict (d : gmap string value) (k : string) (dflt : value) :
  py_get (VDict d) k dflt = Ok (default dflt (d !! k)).
Proof. reflexivity. Qed.

Lemma py_get_ok (o : value) (k : string) (dflt v : value) :
  py_get o k dflt = Ok v → ∃ d, o = VDict d.
Proof. destruct o; try discriminate. eauto. Qed.

Section FormatterFacts.

Variable py_repr : value → string.

Lemma header_text_spec (d : gmap string value) (k : string) :
  py_str py_repr (py_or (default VNone (d !! k)) dash) = header_text py_repr d k.
Proof.
  unfold header_text, py_or. destruct (d !! k) as [v|]; cbn [default from_option id]; [|done].
  by destruct (truthy v).
Qed.

Lemma nutrient_line_spec (nutr : gmap string value) (key label : string)
    (lines : list string) :
  nutrient_line py_repr nutr key label lines
  = Ok (lines ++ section_lines py_repr [(key, label)] nutr).
Proof.
  unfold nutrient_line, py_in, py_getitem, section_lines.
  cbn [omap list_omap fst snd]. destruct (nutr !! key) as [v|].
  - by rewrite bool_decide_eq_true_2 by eauto.
  - rewrite bool_decide_eq_false_2 by (by intros [? ?]).
    cbn. by rewrite app_nil_r.
Qed.

Lemma section_lines_cons (f g : string * string)
    (fields : list (string * string)) (nutr : gmap string value) :
  section_lines py_repr (f :: g :: fields) nutr
  = section_lines py_repr [f] nutr ++ section_lines py_repr (g :: fields) nutr.
Proof.
  unfold section_lines. cbn [omap list_omap].
  by destruct (nutr !! f.1).
Qed.

(** The lines the code appends are the header followed by the nutrients
    section, whenever the summary can be built. *)
Lemma format_product_lines_spec (d nutr : gmap string value) :
  nutrient_summary (VDict d) = Ok nutr →
  format_product_lines py_repr (VDict d)
  = Ok (header_lines py_repr d ++ nutrient_section py_repr nutr).
Proof.
  unfold nutrient_summary, format_product_lines. rewrite !py_get_dict.
  cbn [mbind result_bind]. intros Hx. rewrite Hx. cbn [mbind result_bind].
  rewrite !header_text_spec. fold (header_lines py_repr d).
  unfold nutrient_section. case_bool_decide as Hempty; [done|].
  do 4 (rewrite nutrient_line_spec; cbn [mbind result_bind]).
  rewrite (any_serving_spec _ _ Hx).
  unfold per_100g_fields, per_serving_fields. rewrite !section_lines_cons.
  destruct (some_field _ nutr).
  - do 3 (rewrite nutrient_line_spec; cbn [mbind result_bind]).
    rewrite nutrient_line_spec. rewrite <- !app_assoc. reflexivity.
  - rewrite !app_nil_r, <- !app_assoc. reflexivity.
Qed.

End FormatterFacts.

(** ** Joining lines *)

Lemma string_app_assoc (a b c : string) : (a +:+ b) +:+ c = a +:+ b +:+ c.
Proof. induction a as [|x a IH]; [done|]. change (String x ((a +:+ b) +:+ c) = String x (a +:+ b +:+ c)). by f_equal. Qed.

Lemma concat_snoc (sep x : string) (lines : list string) :
  lines ≠ [] →
  String.concat sep (lines ++ [x]) = String.concat sep lines +:+ sep +:+ x.
Proof.
  induction lines as [|a [|b lines] IH]; intros Hne; [done|done|].
  specialize (IH ltac:(done)).
  change (String.concat sep ((a :: b :: lines) ++ [x]))
    with (a +:+ sep +:+ String.concat sep ((b :: lines) ++ [x])).
  rewrite IH.
  change (String.concat sep (a :: b :: lines))
    with (a +:+ sep +:+ String.concat sep (b :: lines)).
  by rewrite !string_app_assoc.
Qed.

(** ** Properties of the formatter *)

Section FormatterClaims.

Variable py_repr : value → string.

Lemma nutrient_summary_dict (product : value) (nutr : gmap string value) :
  nutrient_summary product = Ok nutr → ∃ d, product = VDict d.
Proof. destruct product; try discriminate. eauto. Qed.

Lemma format_product_lines_raise (d : gmap string value) (e : exn) :
  nutrient_summary (VDict d) = Raise e →
  format_product_lines py_repr (VDict d) = Raise e.
Proof.
  unfold nutrient_summary, format_product_lines. rewrite !py_get_dict.
  cbn [mbind result_bind]. by intros ->.
Qed.

Lemma header_lines_not_nutrient (d : gmap string value) (line : string) :
  line ∈ header_lines py_repr d → is_nutrient_line line = false.
Proof.
  unfold header_lines. intros Hin.
  repeat (apply elem_of_cons in Hin as [->|Hin]; [reflexivity|]).
  by apply elem_of_nil in Hin.
Qed.

Lemma header_lines_not_serving_header (d : gmap string value) :
  serving_header ∉ header_lines py_repr d.
Proof.
  unfold header_lines, serving_header. intros Hin.
  repeat (apply elem_of_cons in Hin as [Hin|Hin]; [by cbn in Hin|]).
  by apply elem_of_nil in Hin.
Qed.

(** Every line of a section is a label of the section followed by the text
    of the value the summary holds for it. *)
Lemma elem_of_section_lines (fields : list (string * string))
    (nutr : gmap string value) (line : string) :
  line ∈ section_lines py_repr fields nutr ↔
  ∃ f v, f ∈ fields ∧ nutr !! f.1 = Some v ∧ line = f.2 +:+ py_str py_repr v.
Proof.
  unfold section_lines. rewrite list_elem_of_omap. split.
  - intros (f & Hf & Hline). destruct (nutr !! f.1) as [v|] eqn:Hv; [|done].
    injection Hline as <-. by exists f, v.
  - intros (f & v & Hf & Hv & ->). exists f. by rewrite Hv.
Qed.

Lemma section_lines_nil (fields : list (string * string))
    (nutr : gmap string value) :
  some_field fields nutr = false → section_lines py_repr fields nutr = [].
Proof.
  intros Hnone. destruct (section_lines py_repr fields nutr) as [|l ls] eqn:E; [done|].
  assert (Hl : l ∈ section_lines py_repr fields nutr) by (rewrite E; left).
  apply elem_of_section_lines in Hl as (f & v & Hf & Hv & _).
  assert (some_field fields nutr = true); [|congruence].
  apply existsb_exists. exists f. split; [by apply list_elem_of_In|].
  apply bool_decide_eq_true. by exists v.
Qed.

Lemma some_field_not_empty (fields : list (string * string))
    (nutr : gmap string value) :
  some_field fields nutr = true → nutr ≠ ∅.
Proof.
  intros Hsome ->. apply existsb_exists in Hsome as (f & _ & Hf).
  apply bool_decide_eq_true in Hf as [v Hv]. by rewrite lookup_empty in Hv.
Qed.

(** C4: when the nutrient map of a product record yields an empty
    NutrientSummary, the formatter returns the seven header lines followed by
    the one "no data" line, the joined text ends in that line, and no line of
    the block opens with a nutrient label. *)
Theorem format_no_data (product : value) :
  nutrient_summary product = Ok ∅ →
  ∃ d,
    product = VDict d
    ∧ format_product_lines py_repr product
      = Ok (header_lines py_repr d ++ [no_data_line])
    ∧ format_product_details py_repr product
      = Ok (String.concat newline (header_lines py_repr d)
            +:+ newline +:+ no_data_line)
    ∧ ∀ line, line ∈ header_lines py_repr d ++ [no_data_line] →
        is_nutrient_line line = false.
Proof.
  intros Hx. destruct (nutrient_summary_dict _ _ Hx) as [d ->]. exists d.
  assert (Hlines : format_product_lines py_repr (VDict d)
                   = Ok (header_lines py_repr d ++ [no_data_line])).
  { rewrite (format_product_lines_spec _ _ _ Hx). unfold nutrient_section.
    by rewrite bool_decide_eq_true_2. }
  split; [done|]. split; [done|]. split.
  - unfold format_product_details. rewrite Hlines. cbn [mbind result_bind].
    by rewrite concat_snoc.
  - intros line [Hin|Hin]%elem_of_app.
    + by eapply header_lines_not_nutrient.
    + apply list_elem_of_singleton in Hin as ->. reflexivity.
Qed.

(** C5: the blank separator and the "per serving" header are in the block
    exactly when the summary holds a per-serving field.  With some per-100g
    field and no per-serving field the block is the header followed by the
    per-100g lines and nothing more: no "per serving" header, and no blank
    line after the header. *)
Theorem format_serving_section (product : value) (nutr : gmap string value) :
  nutrient_summary product = Ok nutr →
  ∃ d lines,
    product = VDict d
    ∧ format_product_lines py_repr product = Ok lines
    ∧ (some_field per_100g_fields nutr = true →
       some_field per_serving_fields nutr = false →
         lines = header_lines py_repr d
                 ++ section_lines py_repr per_100g_fields nutr
         ∧ (serving_header ∉ lines)
         ∧ ("" ∉ section_lines py_repr per_100g_fields nutr))
    ∧ (serving_header ∈ lines ↔ some_field per_serving_fields nutr = true)
    ∧ (some_field per_serving_fields nutr = true →
         ∃ before,
           lines = before ++ [""; serving_header]
                   ++ section_lines py_repr per_serving_fields nutr).
Proof.
  intros Hx. destruct (nutrient_summary_dict _ _ Hx) as [d ->].
  exists d, (header_lines py_repr d ++ nutrient_section py_repr nutr).
  split; [done|]. split; [by apply format_product_lines_spec|].
  assert (H100 : ∀ line, line ∈ section_lines py_repr per_100g_fields nutr →
                  line ≠ serving_header ∧ line ≠ "").
  { intros line (f & v & Hf & _ & ->)%elem_of_section_lines.
    unfold per_100g_fields in Hf.
    repeat (apply elem_of_cons in Hf as [->|Hf]; [by split|]).
    by apply elem_of_nil in Hf. }
  split; [|split].
  - intros Hsome Hnone. unfold nutrient_section.
    rewrite bool_decide_eq_false_2 by (by eapply some_field_not_empty).
    rewrite Hnone, app_nil_r. split; [done|]. split.
    + intros [Hin|Hin]%elem_of_app.
      * by eapply header_lines_not_serving_header.
      * by destruct (H100 _ Hin).
    + intros Hin. by destruct (H100 _ Hin).
  - unfold nutrient_section. split.
    + intros [Hin|Hin]%elem_of_app.
      { by apply header_lines_not_serving_header in Hin. }
      case_bool_decide.
      { by apply list_elem_of_singleton in Hin. }
      destruct (some_field per_serving_fields nutr); [done|].
      rewrite app_nil_r in Hin. by destruct (H100 _ Hin).
    + intros Hsome.
      rewrite bool_decide_eq_false_2 by (by eapply some_field_not_empty).
      rewrite Hsome. apply elem_of_app. right. apply elem_of_app. right.
      apply elem_of_app. left. right. left.
  - intros Hsome. unfold nutrient_section.
    rewrite bool_decide_eq_false_2 by (by eapply some_field_not_empty).
    rewrite Hsome.
    exists (header_lines py_repr d ++ section_lines py_repr per_100g_fields nutr).
    by rewrite <- app_assoc.
Qed.

(** The layout of a block, given the summary of the product: header lines,
    then the per-100g lines, then lines that carry no per-100g label. *)
Lemma format_layout_of_summary (product : value) (nutr : gmap string value) :
  nutrient_summary product = Ok nutr →
  ∃ d others,
    product = VDict d
    ∧ format_product_lines py_repr product
      = Ok ([ "Название: " +:+ header_text py_repr d "product_name";
              "Бренд: " +:+ header_text py_repr d "brands";
              "Штрихкод: " +:+ header_text py_repr d "code";
              "Упаковка: " +:+ header_text py_repr d "quantity";
              "Порция: " +:+ header_text py_repr d "serving_size";
              "";
              "Питательные вещества:" ]
            ++ section_lines py_repr per_100g_fields nutr ++ others)
    ∧ (∀ k, d !! k = None → header_text py_repr d k = "—")
    ∧ (∀ k v, d !! k = Some v → truthy v = true →
         header_text py_repr d k = py_str py_repr v)
    ∧ section_lines py_repr per_100g_fields nutr
      = omap (λ f : string * string,
                match nutr !! f.1 with
                | Some v => Some (f.2 +:+ py_str py_repr v)
                | None => None
                end)
          [ ("kcal_100g", "  Калории на 100 г: ");
            ("protein_100g", "  Белок на 100 г: ");
            ("fat_100g", "  Жиры на 100 г: ");
            ("carbs_100g", "  Углеводы на 100 г: ") ]
    ∧ (∀ line, line ∈ others → has_label per_100g_fields line = false).
Proof.
  intros Hx. destruct (nutrient_summary_dict _ _ Hx) as [d ->].
  exists d.
  exists (if bool_decide (nutr = ∅) then [no_data_line]
          else if some_field per_serving_fields nutr
               then [""; serving_header]
                    ++ section_lines py_repr per_serving_fields nutr
               else []).
  split; [done|]. split; [|split; [|split; [|split]]].
  - rewrite (format_product_lines_spec _ _ _ Hx). unfold nutrient_section.
    fold (header_lines py_repr d). do 2 f_equal.
    case_bool_decide as Hempty; [|done]. subst nutr.
    by rewrite section_lines_nil.
  - intros k Hk. unfold header_text. by rewrite Hk.
  - intros k v Hk Hv. unfold header_text. by rewrite Hk, Hv.
  - reflexivity.
  - intros line Hin. case_bool_decide.
    { by apply list_elem_of_singleton in Hin as ->. }
    destruct (some_field per_serving_fields nutr);
      [|by apply elem_of_nil in Hin].
    apply elem_of_cons in Hin as [->|Hin]; [done|].
    apply elem_of_cons in Hin as [->|Hin]; [done|].
    apply elem_of_section_lines in Hin as (f & v & Hf & _ & ->).
    unfold per_serving_fields in Hf.
    repeat (apply elem_of_cons in Hf as [->|Hf]; [reflexivity|]).
    by apply elem_of_nil in Hf.
Qed.

(** Setting a header key to a falsy value and removing the key give the
    same outcome of the formatter. *)
Lemma falsy_header_field_outcome (d : gmap string value) (k : string)
    (v : value) :
  k ∈ header_keys →
  truthy v = false →
  format_product_details py_repr (VDict (<[k := v]> d))
  = format_product_details py_repr (VDict (delete k d))
  ∧ header_text py_repr (<[k := v]> d) k = "—"
  ∧ header_text py_repr (delete k d) k = "—".
Proof.
  intros Hk Hv.
  assert (Hne : k ≠ "nutriments").
  { intros ->. unfold header_keys in Hk.
    repeat (apply elem_of_cons in Hk as [Hk|Hk]; [done|]).
    by apply elem_of_nil in Hk. }
  assert (Htext : ∀ k', header_text py_repr (<[k := v]> d) k'
                        = header_text py_repr (delete k d) k').
  { intros k'. unfold header_text. destruct (decide (k = k')) as [<-|Hkk].
    - by rewrite lookup_insert_eq, lookup_delete_eq, Hv.
    - by rewrite lookup_insert_ne, lookup_delete_ne. }
  assert (Hsum : nutrient_summary (VDict (<[k := v]> d))
                 = nutrient_summary (VDict (delete k d))).
  { unfold nutrient_summary. rewrite !py_get_dict.
    by rewrite lookup_insert_ne, lookup_delete_ne. }
  split; [|split].
  - unfold format_product_details. f_equal.
    destruct (nutrient_summary (VDict (delete k d))) as [nutr|e] eqn:Hd.
    + rewrite (format_product_lines_spec _ _ nutr) by (by rewrite Hsum).
      rewrite (format_product_lines_spec _ _ nutr Hd).
      unfold header_lines. by rewrite !Htext.
    + rewrite (format_product_lines_raise _ e) by (by rewrite Hsum).
      by rewrite (format_product_lines_raise _ e Hd).
  - unfold header_text. by rewrite lookup_insert_eq, Hv.
  - unfold header_text. by rewrite lookup_delete_eq.
Qed.

End FormatterClaims.

(** ** Properties of the extractor *)

(** C8: on every dict, the empty one included, the extractor returns a
    summary; it raises on no dict at all.  The summary has no key besides
    the eight output identifiers and no null value. *)
Theorem extract_kcal_total (d : gmap string value) :
  ∃ nutr,
    extract_kcal (VDict d) = Ok nutr
    ∧ (∀ k, is_Some (nutr !! k) → k ∈ output_keys)
    ∧ (∀ k v, nutr !! k = Some v → v ≠ VNone)
    ∧ (d = ∅ → nutr = ∅).
Proof.
  destruct (extract_kcal (VDict d)) as [nutr|e] eqn:Hx; [|discriminate Hx].
  exists nutr. split; [done|]. split; [|split].
  - intros k. by apply extract_kcal_keys with (n := VDict d).
  - intros k v Hv ->. by pose proof (extract_kcal_not_none _ _ _ _ Hx Hv).
  - intros ->. apply map_eq. intros k.
    rewrite (extract_kcal_lookup _ _ k Hx), lookup_empty.
    destruct (list_to_map _ !! k) as [v|] eqn:Hk; [|done].
    apply elem_of_list_to_map_2 in Hk. unfold data in Hk.
    repeat (apply elem_of_cons in Hk as [[= -> ->]|Hk];
            [by rewrite ?lookup_empty|]).
    by apply elem_of_nil in Hk.
Qed.

(** ** Properties of the client and of the handlers *)

Section ClientClaims.

Variable py_repr : value → string.
Variable requests_get : request → result response.

Lemma get_product_by_barcode_ok (barcode : string) (st : Z) (body : result value) :
  requests_get (lookup_request barcode)
  = Ok {| status_code := st; json := body |} →
  ¬ (400 ≤ st < 600)%Z →
  get_product_by_barcode requests_get barcode None "ru" "ru" = body.
Proof.
  intros Hget Hst. unfold get_product_by_barcode.
  fold (lookup_request barcode). rewrite Hget. cbn [mbind result_bind].
  unfold raise_for_status. cbn [status_code json].
  by rewrite bool_decide_eq_false_2.
Qed.

Lemma search_products_ok (query : string) (n st : Z) (body : result value) :
  requests_get (search_request query n)
  = Ok {| status_code := st; json := body |} →
  ¬ (400 ≤ st < 600)%Z →
  search_products requests_get query n None "ru" "ru" = body.
Proof.
  intros Hget Hst. unfold search_products.
  fold (search_request query n). rewrite Hget. cbn [mbind result_bind].
  unfold raise_for_status. cbn [status_code json].
  by rewrite bool_decide_eq_false_2.
Qed.

(** C3, as the code has it: [get_product_by_barcode] returns the whole JSON
    body.  The nested [product] object is read by the caller,
    [search_by_barcode], with [data.get("product")], which is null when the
    body has no such key; the handler then reports "not found" and formats
    nothing, and otherwise shows the formatted product. *)
Theorem lookup_returns_body (barcode : string) (st : Z)
    (body : gmap string value) :
  requests_get (lookup_request barcode)
  = Ok {| status_code := st; json := Ok (VDict body) |} →
  ¬ (400 ≤ st < 600)%Z →
  get_product_by_barcode requests_get barcode None "ru" "ru" = Ok (VDict body)
  ∧ (data ← get_product_by_barcode requests_get barcode None "ru" "ru";
     py_get data "product" VNone)
    = Ok (default VNone (body !! "product"))
  ∧ (∀ w, body !! "product" = None →
       search_by_barcode py_repr requests_get barcode w
       = (information "Результат" "Продукт не найден." (cleared w), Ok ()))
  ∧ (∀ w product, body !! "product" = Some product → truthy product = true →
       search_by_barcode py_repr requests_get barcode w
       = match format_product_details py_repr product with
         | Ok details => (setPlainText details (cleared w), Ok ())
         | Raise e => (cleared w, Raise e)
         end).
Proof.
  intros Hget Hst.
  pose proof (get_product_by_barcode_ok _ _ _ Hget Hst) as Hbody.
  split; [done|]. split; [by rewrite Hbody|]. split.
  - intros w Hp. unfold search_by_barcode, cleared.
    unfold mbind, gui_bind, modify, lift; cbn beta iota. rewrite Hbody, py_get_dict, Hp.
    reflexivity.
  - intros w product Hp Ht. unfold search_by_barcode, cleared.
    unfold mbind, gui_bind, modify, lift; cbn beta iota. rewrite Hbody, py_get_dict, Hp.
    cbn [default from_option id]. rewrite Ht. cbn [negb].
    by destruct (format_product_details py_repr product).
Qed.

(** C7: a search whose response body has no [products] key, or an empty
    [products] array, is not an error.  [search_products] returns the body,
    the result list read from it is empty, and the handler returns normally
    after showing "nothing found": the stored list is empty, the table has
    no row and no cell, and the details pane is empty. *)
Theorem search_nothing_found (name : string) (st : Z)
    (body : gmap string value) (w : MainWindow) :
  requests_get (search_request name 10)
  = Ok {| status_code := st; json := Ok (VDict body) |} →
  ¬ (400 ≤ st < 600)%Z →
  body !! "products" = None ∨ body !! "products" = Some (VList []) →
  search_products requests_get name 10 None "ru" "ru" = Ok (VDict body)
  ∧ py_get (VDict body) "products" (VList []) = Ok (VList [])
  ∧ ∃ w',
      search_by_name py_repr requests_get name w = (w', Ok ())
      ∧ current_products w' = VList []
      ∧ table_rows w' = 0
      ∧ table_items w' = ∅
      ∧ details_text w' = ""
      ∧ dialogs w' = dialogs w ++ [Information "Результат" "Ничего не найдено."].
Proof.
  intros Hget Hst Hp.
  pose proof (search_products_ok _ _ _ _ Hget Hst) as Hbody.
  assert (Hlist : py_get (VDict body) "products" (VList []) = Ok (VList [])).
  { rewrite py_get_dict. by destruct Hp as [-> | ->]. }
  split; [done|]. split; [done|].
  eexists. split.
  - unfold search_by_name. unfold mbind, gui_bind, modify, lift; cbn beta iota.
    rewrite Hbody, Hlist. reflexivity.
  - cbn. by rewrite map_filter_empty.
Qed.

(** C9: for a product with per-100g and per-serving data the formatter
    returns one determined sequence: header, per-100g lines, blank line,
    "per serving" header, per-serving lines.  A call leaves the stored
    product as it was, so showing the same row a second time yields the
    same text and the same window. *)
Theorem format_repeatable (product : value) (nutr : gmap string value) :
  nutrient_summary product = Ok nutr →
  some_field per_100g_fields nutr = true →
  some_field per_serving_fields nutr = true →
  ∃ d lines,
    product = VDict d
    ∧ lines = header_lines py_repr d
              ++ section_lines py_repr per_100g_fields nutr
              ++ [""; serving_header]
              ++ section_lines py_repr per_serving_fields nutr
    ∧ format_product_lines py_repr product = Ok lines
    ∧ format_product_details py_repr product
      = Ok (String.concat newline lines)
    ∧ ∀ (w : MainWindow) (products : list value) (row : nat) (column : Z),
        current_products w = VList products →
        products !! row = Some product →
        let shown := setPlainText (String.concat newline lines) w in
        on_table_double_clicked py_repr (Z.of_nat row) column w
        = (shown, Ok ())
        ∧ on_table_double_clicked py_repr (Z.of_nat row) column shown
          = (shown, Ok ()).
Proof.
  intros Hx H100 Hserv. destruct (nutrient_summary_dict _ _ Hx) as [d ->].
  eexists d, _. split; [done|]. split; [reflexivity|].
  assert (Hlines : format_product_lines py_repr (VDict d)
    = Ok (header_lines py_repr d ++ section_lines py_repr per_100g_fields nutr
          ++ [""; serving_header]
          ++ section_lines py_repr per_serving_fields nutr)).
  { rewrite (format_product_lines_spec _ _ _ Hx). unfold nutrient_section.
    rewrite bool_decide_eq_false_2 by (by eapply some_field_not_empty).
    by rewrite Hserv. }
  assert (Hdetails : format_product_details py_repr (VDict d)
    = Ok (String.concat newline
            (header_lines py_repr d
             ++ section_lines py_repr per_100g_fields nutr
             ++ [""; serving_header]
             ++ section_lines py_repr per_serving_fields nutr))).
  { unfold format_product_details. by rewrite Hlines. }
  split; [done|]. split; [done|].
  intros w products row column Hw Hrow.
  assert (Hcall : ∀ w0, current_products w0 = VList products →
    on_table_double_clicked py_repr (Z.of_nat row) column w0
    = (setPlainText (String.concat newline
         (header_lines py_repr d
          ++ section_lines py_repr per_100g_fields nutr
          ++ [""; serving_header]
          ++ section_lines py_repr per_serving_fields nutr)) w0, Ok ())).
  { intros w0 Hw0. unfold on_table_double_clicked.
    rewrite bool_decide_eq_true_2 by lia.
    unfold mbind, gui_bind, read, lift; cbn beta iota. rewrite Hw0. cbn [py_len].
    rewrite bool_decide_eq_true_2
      by (apply lookup_lt_Some in Hrow; lia).
    cbn [py_index]. rewrite Nat2Z.id, Hrow, Hdetails. reflexivity. }
  split.
  - by apply Hcall.
  - rewrite Hcall by done. reflexivity.
Qed.

End ClientClaims.

(** ** Evaluations *)

(** C1: a zero primary energy value is present and not null, yet the
    extractor leaves [kcal_100g] out, while a zero protein value is kept. *)
Lemma extract_kcal_zero_energy_dropped :
  extract_kcal (VDict {[ "energy-kcal_100g" := VInt 0 ]}) = Ok ∅
  ∧ extract_kcal (VDict {[ "proteins_100g" := VInt 0 ]})
    = Ok {[ "protein_100g" := VInt 0 ]}.
Proof. split; vm_compute; reflexivity. Qed.

(** C2: with the primary energy key present and zero, [kcal_100g] is the
    value of the fallback key, not the primary one. *)
Lemma extract_kcal_zero_energy_falls_back :
  extract_kcal
    (VDict {[ "energy-kcal_100g" := VInt 0; "energy-kcal_value" := VInt 52 ]})
  = Ok {[ "kcal_100g" := VInt 52 ]}.
Proof. vm_compute; reflexivity. Qed.

(** C3 as stated fails: for a body with a [product] key the function
    returns the body, which is not the nested product. *)
Lemma get_product_by_barcode_not_nested :
  get_product_by_barcode (answering (VDict lookup_body))
    "5449000000996" None "ru" "ru"
  = Ok (VDict lookup_body)
  ∧ get_product_by_barcode (answering (VDict lookup_body))
      "5449000000996" None "ru" "ru"
    ≠ Ok (default VNone (lookup_body !! "product")).
Proof.
  split; [reflexivity|]. intros H.
  apply (f_equal (λ r : result value,
                    match r with
                    | Ok (VDict m) => m !! "product"
                    | _ => None
                    end)) in H.
  vm_compute in H. discriminate H.
Qed.

(** The two extractor examples of the specification; the float is 0.3 as
    binary64 holds it. *)
Example extract_kcal_energy_and_protein :
  extract_kcal
    (VDict {[ "energy-kcal_100g" := VInt 52;
              "proteins_100g" := VFloat 0x1.3333333333333p-2 ]})
  = Ok {[ "kcal_100g" := VInt 52;
          "protein_100g" := VFloat 0x1.3333333333333p-2 ]}.
Proof. vm_compute; reflexivity. Qed.

Example extract_kcal_fallback_spelling :
  extract_kcal (VDict {[ "energy-kcal_value" := VInt 52 ]})
  = Ok {[ "kcal_100g" := VInt 52 ]}.
Proof. vm_compute; reflexivity. Qed.

Example endswith_serving :
  endswith "kcal_serving" "_serving" = true
  ∧ endswith "kcal_100g" "_serving" = false
  ∧ endswith "ing" "_serving" = false.
Proof. by vm_compute. Qed.

Example code_points_dash : code_points "—a" = ["—"; "a"].
Proof. reflexivity. Qed.

(** A [nutriments] entry that is present and not a dict (here null) has no
    [get]: the formatter raises rather than formats.  The statements above
    are about the records whose summary can be built. *)
Remark format_product_details_null_nutriments :
  format_product_details sample_repr (VDict {[ "nutriments" := VNone ]})
  = Raise AttributeError.
Proof. vm_compute; reflexivity. Qed.

(** ** Instances *)

Lemma format_no_data_witness :
  format_product_lines sample_repr (VDict water)
  = Ok [ "Название: Water"; "Бренд: —"; "Штрихкод: —"; "Упаковка: —";
         "Порция: —"; ""; "Питательные вещества:";
         "  данные о БЖУ не найдены" ].
Proof.
  destruct (format_no_data sample_repr (VDict water)) as (d & Hd & Hlines & _).
  - vm_compute. reflexivity.
  - injection Hd as <-. rewrite Hlines. vm_compute. reflexivity.
Defined.

Lemma format_serving_section_witness :
  format_product_lines sample_repr (VDict curd)
  = Ok [ "Название: —"; "Бренд: —"; "Штрихкод: —"; "Упаковка: —";
         "Порция: —"; ""; "Питательные вещества:";
         "  Белок на 100 г: 16" ].
Proof.
  destruct (format_serving_section sample_repr (VDict curd) curd_summary)
    as (d & lines & Hd & Hlines & Hshape & _).
  - vm_compute. reflexivity.
  - injection Hd as <-. rewrite Hlines.
    destruct Hshape as (-> & _); [vm_compute; reflexivity ..|].
    vm_compute. reflexivity.
Defined.

Lemma lookup_returns_body_witness :
  get_product_by_barcode (answering (VDict lookup_body))
    "5449000000996" None "ru" "ru"
  = Ok (VDict lookup_body)
  ∧ (data ← get_product_by_barcode (answering (VDict lookup_body))
              "5449000000996" None "ru" "ru";
     py_get data "product" VNone)
    = Ok (VDict cola).
Proof.
  destruct (lookup_returns_body sample_repr (answering (VDict lookup_body))
              "5449000000996" 200 lookup_body) as (Hbody & Hnested & _).
  - reflexivity.
  - lia.
  - split; [exact Hbody|]. rewrite Hnested. vm_compute. reflexivity.
Defined.

Lemma search_nothing_found_witness :
  search_by_name sample_repr (answering (VDict empty_search_body)) "qwerty"
    init
  = ({| current_products := VList []; details_text := ""; table_rows := 0;
        table_items := ∅;
        dialogs := [Information "Результат" "Ничего не найдено."] |},
     Ok ()).
Proof.
  destruct (search_nothing_found sample_repr
              (answering (VDict empty_search_body)) "qwerty" 200
              empty_search_body init)
    as (_ & _ & w' & Hrun & Hcur & Hrows & Hitems & Htext & Hdialogs).
  - reflexivity.
  - lia.
  - right. vm_compute. reflexivity.
  - rewrite Hrun. destruct w'. cbn in *. by subst.
Defined.

Lemma format_repeatable_witness :
  format_product_lines sample_repr (VDict cola)
  = Ok [ "Название: Coca-Cola"; "Бренд: —"; "Штрихкод: 5449000000996";
         "Упаковка: —"; "Порция: —"; ""; "Питательные вещества:";
         "  Калории на 100 г: 42"; "  Углеводы на 100 г: 11";
         ""; "На порцию:"; "  Калории на порцию: 139" ].
Proof.
  destruct (format_repeatable sample_repr (VDict cola) cola_summary)
    as (d & lines & Hd & -> & Hlines & _).
  - vm_compute. reflexivity.
  - vm_compute. reflexivity.
  - vm_compute. reflexivity.
  - injection Hd as <-. rewrite Hlines. vm_compute. reflexivity.
Defined.

(** * Further properties *)

(** ** The extractor *)

Lemma present_Some (d : gmap string value) (k : string) (v : value) :
  present d k = Some v ↔ d !! k = Some v ∧ is_none v = false.
Proof.
  unfold present. destruct (d !! k) as [u|]; [|by split; [|intros [? _]]].
  destruct (is_none u) eqn:Hu; split.
  - done.
  - intros [[= ->] ?]. congruence.
  - by intros [= ->].
  - by intros [[= ->] _].
Qed.

Lemma truthy_not_none (v : value) : truthy v = true → is_none v = false.
Proof. by destruct v. Qed.

Lemma kcal_100g_lookup (d nutr : gmap string value) :
  extract_kcal (VDict d) = Ok nutr →
  nutr !! "kcal_100g"
  = if truthy (default VNone (d !! "energy-kcal_100g"))
    then d !! "energy-kcal_100g"
    else present d "energy-kcal_value".
Proof.
  intros Hx. destruct (extract_kcal_fields _ _ Hx) as [-> _].
  unfold py_or. destruct (d !! "energy-kcal_100g") as [v|];
    cbn [default from_option id truthy].
  - destruct (truthy v) eqn:Hv; [|apply keep_default].
    by rewrite (truthy_not_none _ Hv).
  - apply keep_default.
Qed.

Lemma plain_field_lookup (d nutr : gmap string value) (src dst : string) :
  extract_kcal (VDict d) = Ok nutr →
  (src, dst) ∈ plain_fields →
  nutr !! dst = present d src.
Proof.
  intros Hx Hin.
  destruct (extract_kcal_fields _ _ Hx) as (_ & ? & ? & ? & ? & ? & ? & ?).
  unfold plain_fields in Hin.
  repeat (apply elem_of_cons in Hin as [Heq|Hin]; [by simplify_eq|]).
  by apply elem_of_nil in Hin.
Qed.

(** The energy field, case by case: a truthy primary value wins; a primary
    value that is missing, null or falsy (zero, empty text) gives way to the
    fallback spelling, and the field is left out when that one is missing or
    null too. *)
Theorem extract_kcal_energy_cases (d : gmap string value) :
  ∃ nutr,
    extract_kcal (VDict d) = Ok nutr
    ∧ nutr !! "kcal_100g"
      = if truthy (default VNone (d !! "energy-kcal_100g"))
        then d !! "energy-kcal_100g"
        else match d !! "energy-kcal_value" with
             | Some VNone | None => None
             | Some v => Some v
             end.
Proof.
  destruct (extract_kcal (VDict d)) as [nutr|e] eqn:Hx; [|discriminate Hx].
  exists nutr. split; [done|]. rewrite (kcal_100g_lookup _ _ Hx).
  destruct (truthy _); [done|]. unfold present.
  destruct (d !! "energy-kcal_value") as [[]|]; reflexivity.
Qed.

(** Each of the seven plain fields is the source value under its new name:
    kept whenever it is there and not null, zero and other falsy values
    included, and left out otherwise. *)
Theorem extract_kcal_plain_fields (d : gmap string value) :
  ∃ nutr,
    extract_kcal (VDict d) = Ok nutr
    ∧ ∀ src dst, (src, dst) ∈ plain_fields →
        nutr !! dst = match d !! src with
                      | Some VNone | None => None
                      | Some v => Some v
                      end.
Proof.
  destruct (extract_kcal (VDict d)) as [nutr|e] eqn:Hx; [|discriminate Hx].
  exists nutr. split; [done|]. intros src dst Hin.
  rewrite (plain_field_lookup _ _ _ _ Hx Hin). unfold present.
  destruct (d !! src) as [[]|]; reflexivity.
Qed.

(** The extractor reads nine keys and nothing else: maps that agree on them
    have the same summary. *)
Theorem extract_kcal_ignores_other_keys (d1 d2 : gmap string value) :
  (∀ k, k ∈ source_keys → d1 !! k = d2 !! k) →
  extract_kcal (VDict d1) = extract_kcal (VDict d2).
Proof.
  intros Hagree. unfold extract_kcal. cbn [attr_get mbind result_bind mret result_ret].
  do 2 f_equal. unfold data.
  repeat match goal with
         | |- context [d1 !! ?k] =>
             rewrite (Hagree k) by (by apply (bool_decide_unpack _); vm_compute)
         end.
  reflexivity.
Qed.

(** Nothing is invented: every value of the summary is a non-null value that
    the source map holds under one of the nine keys. *)
Theorem extract_kcal_values_from_source (d nutr : gmap string value)
    (k : string) (v : value) :
  extract_kcal (VDict d) = Ok nutr →
  nutr !! k = Some v →
  v ≠ VNone ∧ ∃ src, src ∈ source_keys ∧ d !! src = Some v.
Proof.
  intros Hx Hv. split.
  { intros ->. by pose proof (extract_kcal_not_none _ _ _ _ Hx Hv). }
  assert (Hk : k ∈ output_keys) by (by eapply extract_kcal_keys).
  unfold output_keys in Hk. cbn in Hk.
  apply elem_of_cons in Hk as [->|Hk].
  { rewrite (kcal_100g_lookup _ _ Hx) in Hv.
    destruct (truthy _).
    - exists "energy-kcal_100g". split; [|done].
      by apply (bool_decide_unpack _); vm_compute.
    - apply present_Some in Hv as [Hv _].
      exists "energy-kcal_value". split; [|done].
      by apply (bool_decide_unpack _); vm_compute. }
  repeat (apply elem_of_cons in Hk as [->|Hk];
    [ match goal with
      | _ : nutr !! ?dst = Some v |- _ =>
          match eval cbv in
                (fst <$> head (filter (λ f : string * string, f.2 = dst)
                                 plain_fields)) with
          | Some ?src =>
              rewrite (plain_field_lookup _ _ src dst Hx) in Hv
                by (by apply (bool_decide_unpack _); vm_compute);
              apply present_Some in Hv as [Hv _];
              exists src; split; [|done];
              by apply (bool_decide_unpack _); vm_compute
          end
      end
    | ]).
  by apply elem_of_nil in Hk.
Qed.

(** The summary is empty exactly when none of the seven plain source values
    is there, the primary energy value is missing, null or falsy, and the
    fallback energy value is missing or null. *)
Theorem extract_kcal_empty_iff (d nutr : gmap string value) :
  extract_kcal (VDict d) = Ok nutr →
  nutr = ∅ ↔
    truthy (default VNone (d !! "energy-kcal_100g")) = false
    ∧ present d "energy-kcal_value" = None
    ∧ ∀ src dst, (src, dst) ∈ plain_fields → present d src = None.
Proof.
  intros Hx. pose proof (kcal_100g_lookup _ _ Hx) as Hkcal. split.
  - intros ->. rewrite lookup_empty in Hkcal.
    destruct (truthy _) eqn:Ht.
    { destruct (d !! "energy-kcal_100g"); [done|discriminate Ht]. }
    split; [done|]. split; [done|]. intros src dst Hin.
    by rewrite <- (plain_field_lookup _ _ _ _ Hx Hin), lookup_empty.
  - intros (Ht & Hfb & Hplain). rewrite Ht, Hfb in Hkcal.
    apply map_eq. intros k. rewrite lookup_empty.
    destruct (nutr !! k) as [v|] eqn:Hv; [|done].
    assert (Hk : k ∈ output_keys) by (by eapply extract_kcal_keys).
    unfold output_keys in Hk. cbn in Hk.
    apply elem_of_cons in Hk as [->|Hk]; [congruence|].
    repeat (apply elem_of_cons in Hk as [->|Hk];
      [ match goal with
        | _ : nutr !! ?dst = Some v |- _ =>
            match eval cbv in
                  (fst <$> head (filter (λ f : string * string, f.2 = dst)
                                   plain_fields)) with
            | Some ?src =>
                assert (Hin : (src, dst) ∈ plain_fields)
                  by (by apply (bool_decide_unpack _); vm_compute);
                rewrite (plain_field_lookup _ _ src dst Hx Hin) in Hv;
                by rewrite (Hplain _ _ Hin) in Hv
            end
        end
      | ]).
    by apply elem_of_nil in Hk.
Qed.

(** ** The formatter *)

Lemma nutrient_summary_ok (d : gmap string value) :
  nutriments_ok d = true → ∃ nutr, nutrient_summary (VDict d) = Ok nutr.
Proof.
  unfold nutriments_ok, nutrient_summary. rewrite py_get_dict.
  destruct (d !! "nutriments") as [[]|]; try discriminate; intros _;
    cbn [default from_option id mbind result_bind]; eauto.
Qed.

Lemma nutrient_summary_bad (d : gmap string value) :
  nutriments_ok d = false → nutrient_summary (VDict d) = Raise AttributeError.
Proof.
  unfold nutriments_ok, nutrient_summary. rewrite py_get_dict.
  by destruct (d !! "nutriments") as [[]|].
Qed.

Lemma section_lines_length (py_repr : value → string)
    (fields : list (string * string)) (nutr : gmap string value) :
  (length (section_lines py_repr fields nutr) ≤ length fields)%nat.
Proof.
  unfold section_lines. induction fields as [|f fields IH]; [done|].
  cbn [omap list_omap length]. destruct (_ <$> nutr !! f.1); cbn [length]; lia.
Qed.

Section FormatterProperties.

Variable py_repr : value → string.

Lemma summary_some_field (n : value) (nutr : gmap string value) :
  extract_kcal n = Ok nutr → nutr ≠ ∅ →
  some_field (per_100g_fields ++ per_serving_fields) nutr = true.
Proof.
  intros Hx Hne. apply map_choose in Hne as (k & v & Hv).
  assert (Hk : k ∈ output_keys) by (by eapply extract_kcal_keys).
  apply list_elem_of_fmap in Hk as (f & -> & Hf).
  apply existsb_exists. exists f. split; [by apply list_elem_of_In|].
  apply bool_decide_eq_true. by exists v.
Qed.

Lemma section_lines_nonempty (fields : list (string * string))
    (nutr : gmap string value) :
  some_field fields nutr = true →
  (1 ≤ length (section_lines py_repr fields nutr))%nat.
Proof.
  intros (f & Hf & Hin)%existsb_exists.
  apply bool_decide_eq_true in Hin as [v Hv].
  assert (Hl : f.2 +:+ py_str py_repr v ∈ section_lines py_repr fields nutr).
  { apply elem_of_section_lines. exists f, v. by rewrite list_elem_of_In. }
  destruct (section_lines py_repr fields nutr); [by apply elem_of_nil in Hl|].
  cbn [length]. lia.
Qed.

Lemma format_product_lines_inv (product : value) (lines : list string) :
  format_product_lines py_repr product = Ok lines →
  ∃ d nutr,
    product = VDict d
    ∧ nutrient_summary product = Ok nutr
    ∧ lines = header_lines py_repr d ++ nutrient_section py_repr nutr.
Proof.
  intros Hlines. destruct product as [| | | | | |d]; try discriminate Hlines.
  destruct (nutrient_summary (VDict d)) as [nutr|e] eqn:Hx.
  - exists d, nutr. rewrite (format_product_lines_spec _ _ _ Hx) in Hlines.
    by injection Hlines as <-.
  - by rewrite (format_product_lines_raise _ _ _ Hx) in Hlines.
Qed.

(** With the text of every value at hand, the formatter returns on the
    formattable records and raises [AttributeError] on all others. *)
Lemma format_product_details_cases (product : value) :
  if formattable product
  then ∃ text, format_product_details py_repr product = Ok text
  else format_product_details py_repr product = Raise AttributeError.
Proof.
  unfold format_product_details.
  destruct product as [| | | | | |d]; try reflexivity.
  cbn [formattable]. destruct (nutriments_ok d) eqn:Hok.
  - destruct (nutrient_summary_ok _ Hok) as [nutr Hx].
    rewrite (format_product_lines_spec _ _ _ Hx). by eexists.
  - by rewrite (format_product_lines_raise _ _ _ (nutrient_summary_bad _ Hok)).
Qed.

(** A formatted block has at least 8 and at most 17 lines: seven for the
    header, then the "no data" line or up to four per-100g lines, a blank
    line, the "per serving" header and four per-serving lines. *)
Theorem format_line_count (product : value) (lines : list string) :
  format_product_lines py_repr product = Ok lines →
  (8 ≤ length lines ≤ 17)%nat.
Proof.
  intros (d & nutr & -> & Hx & ->)%format_product_lines_inv.
  rewrite length_app. change (length (header_lines py_repr d)) with 7.
  unfold nutrient_section. case_bool_decide as Hempty; [cbn; lia|].
  rewrite length_app.
  pose proof (section_lines_length py_repr per_100g_fields nutr) as H100.
  pose proof (section_lines_length py_repr per_serving_fields nutr) as Hserv.
  change (length per_100g_fields) with 4 in H100.
  change (length per_serving_fields) with 4 in Hserv.
  destruct (some_field per_serving_fields nutr) eqn:Hsome.
  - rewrite length_app. cbn [length]. lia.
  - cbn [length]. split; [|lia].
    unfold nutrient_summary in Hx. rewrite py_get_dict in Hx.
    pose proof (summary_some_field _ _ Hx Hempty) as Hany.
    unfold some_field in Hany. rewrite existsb_app in Hany.
    apply orb_true_iff in Hany as [Hany|Hany];
      [|unfold some_field in Hsome; congruence].
    pose proof (section_lines_nonempty _ _ Hany). lia.
Qed.

(** The formatter reads six keys of the product and nothing else: records
    that agree on name, brand, code, quantity, serving size and nutriments
    give the same text, or fail alike. *)
Theorem format_ignores_other_keys (d1 d2 : gmap string value) :
  (∀ k, k ∈ read_keys → d1 !! k = d2 !! k) →
  format_product_details py_repr (VDict d1)
  = format_product_details py_repr (VDict d2).
Proof.
  intros Hagree. unfold format_product_details, format_product_lines.
  rewrite !py_get_dict.
  repeat match goal with
         | |- context [d1 !! ?k] =>
             rewrite (Hagree k) by (by apply (bool_decide_unpack _); vm_compute)
         end.
  reflexivity.
Qed.

(** With per-serving fields and no per-100g field, the title of the
    nutrients section is followed at once by the blank line, the "per
    serving" header and the per-serving lines. *)
Theorem format_serving_only (product : value) (nutr : gmap string value) :
  nutrient_summary product = Ok nutr →
  some_field per_100g_fields nutr = false →
  some_field per_serving_fields nutr = true →
  ∃ d,
    product = VDict d
    ∧ format_product_lines py_repr product
      = Ok (header_lines py_repr d ++ [""; serving_header]
            ++ section_lines py_repr per_serving_fields nutr).
Proof.
  intros Hx H100 Hserv. destruct (nutrient_summary_dict _ _ Hx) as [d ->].
  exists d. split; [done|].
  rewrite (format_product_lines_spec _ _ _ Hx). unfold nutrient_section.
  rewrite bool_decide_eq_false_2 by (by eapply some_field_not_empty).
  by rewrite Hserv, section_lines_nil.
Qed.

(** The "no data" line is among the lines of a block exactly when the
    summary of the product is empty. *)
Theorem no_data_line_iff (product : value) (nutr : gmap string value)
    (lines : list string) :
  nutrient_summary product = Ok nutr →
  format_product_lines py_repr product = Ok lines →
  no_data_line ∈ lines ↔ nutr = ∅.
Proof.
  intros Hx (d & nutr' & -> & Hx' & ->)%format_product_lines_inv.
  assert (nutr' = nutr) as -> by congruence.
  unfold nutrient_section. case_bool_decide as Hempty.
  { split; [done|]. intros _. apply elem_of_app. right. left. }
  split; [|done]. intros Hin. exfalso.
  assert (Hsect : ∀ fields,
            fields = per_100g_fields ∨ fields = per_serving_fields →
            no_data_line ∉ section_lines py_repr fields nutr).
  { intros fields Hf (f & v & Hin' & _ & Heq)%elem_of_section_lines.
    destruct Hf as [-> | ->]; unfold per_100g_fields, per_serving_fields in Hin';
      repeat (apply elem_of_cons in Hin' as [->|Hin']; [discriminate Heq|]);
      by apply elem_of_nil in Hin'. }
  apply elem_of_app in Hin as [Hin|Hin].
  { unfold header_lines in Hin.
    repeat (apply elem_of_cons in Hin as [Hin|Hin]; [discriminate Hin|]).
    by apply elem_of_nil in Hin. }
  apply elem_of_app in Hin as [Hin|Hin];
    [exact (Hsect _ (or_introl eq_refl) Hin)|].
  destruct (some_field per_serving_fields nutr); [|by apply elem_of_nil in Hin].
  apply elem_of_cons in Hin as [Hin|Hin]; [discriminate Hin|].
  apply elem_of_cons in Hin as [Hin|Hin]; [discriminate Hin|].
  exact (Hsect _ (or_intror eq_refl) Hin).
Qed.

(** The formatter raises [AttributeError] exactly on what is not a
    formattable record: a product that is not a dict, or whose [nutriments]
    entry is present and not a dict (null included).  Missing, null or falsy
    header fields never cause it. *)
Theorem format_product_details_attribute_error (product : value) :
  format_product_details py_repr product = Raise AttributeError
  ↔ formattable product = false.
Proof.
  pose proof (format_product_details_cases product) as Hcases.
  destruct (formattable product); split; try done.
  destruct Hcases as [text Htext]. by rewrite Htext.
Qed.

(** C6, as the code has it: for every product record whose [nutriments]
    entry is missing or a dict, the block opens with the lines for name,
    brand, code, package quantity and serving size in that order, a blank
    line and the title of the nutrients section; a header field that is
    absent shows the dash and one with a truthy value shows that value.  The
    per-100g lines come next, in the order calories, protein, fat, carbs:
    one labelled line for each of these fields the summary holds and none
    for the others. *)
Theorem format_layout (product : value) :
  formattable product = true →
  ∃ d nutr others,
    product = VDict d
    ∧ nutrient_summary product = Ok nutr
    ∧ format_product_lines py_repr product
      = Ok ([ "Название: " +:+ header_text py_repr d "product_name";
              "Бренд: " +:+ header_text py_repr d "brands";
              "Штрихкод: " +:+ header_text py_repr d "code";
              "Упаковка: " +:+ header_text py_repr d "quantity";
              "Порция: " +:+ header_text py_repr d "serving_size";
              "";
              "Питательные вещества:" ]
            ++ section_lines py_repr per_100g_fields nutr ++ others)
    ∧ (∀ k, d !! k = None → header_text py_repr d k = "—")
    ∧ (∀ k v, d !! k = Some v → truthy v = true →
         header_text py_repr d k = py_str py_repr v)
    ∧ section_lines py_repr per_100g_fields nutr
      = omap (λ f : string * string,
                match nutr !! f.1 with
                | Some v => Some (f.2 +:+ py_str py_repr v)
                | None => None
                end)
          [ ("kcal_100g", "  Калории на 100 г: ");
            ("protein_100g", "  Белок на 100 г: ");
            ("fat_100g", "  Жиры на 100 г: ");
            ("carbs_100g", "  Углеводы на 100 г: ") ]
    ∧ (∀ line, line ∈ others → has_label per_100g_fields line = false).
Proof.
  intros Hok. destruct product as [| | | | | |d]; try discriminate Hok.
  cbn [formattable] in Hok. destruct (nutrient_summary_ok _ Hok) as [nutr Hx].
  destruct (format_layout_of_summary py_repr (VDict d) nutr Hx)
    as (d' & others & Hd & Hfacts).
  injection Hd as <-. by exists d, nutr, others.
Qed.

(** C10: a header field that is present with a falsy value (the empty
    string, zero, null, ...) is rendered exactly as if its key were missing:
    the two records have the same outcome, and whenever the record can be
    formatted the line of that field, in the list the code builds and so in
    the text it returns, is the label followed by the dash. *)
Theorem falsy_header_field_is_dash (d : gmap string value) (i : nat)
    (k label : string) (v : value) :
  header_fields !! i = Some (k, label) →
  truthy v = false →
  format_product_details py_repr (VDict (<[k := v]> d))
  = format_product_details py_repr (VDict (delete k d))
  ∧ (formattable (VDict d) = true →
     ∃ lines,
       format_product_lines py_repr (VDict (<[k := v]> d)) = Ok lines
       ∧ format_product_lines py_repr (VDict (delete k d)) = Ok lines
       ∧ lines !! i = Some (label +:+ "—")
       ∧ format_product_details py_repr (VDict (<[k := v]> d))
         = Ok (String.concat newline lines)).
Proof.
  intros Hfield Hv.
  assert (Hk : k ∈ header_keys).
  { apply list_elem_of_lookup_2 in Hfield. unfold header_fields in Hfield.
    repeat (apply elem_of_cons in Hfield as [[= -> _]|Hfield];
            [by apply (bool_decide_unpack _); vm_compute|]).
    by apply elem_of_nil in Hfield. }
  destruct (falsy_header_field_outcome py_repr d k v Hk Hv) as (Hsame & Hdash & _).
  split; [exact Hsame|]. cbn [formattable]. intros Hok.
  assert (Hne : k ≠ "nutriments").
  { intros ->. unfold header_keys in Hk.
    repeat (apply elem_of_cons in Hk as [Hk|Hk]; [done|]).
    by apply elem_of_nil in Hk. }
  assert (Hok' : nutriments_ok (<[k := v]> d) = true).
  { unfold nutriments_ok in *. by rewrite lookup_insert_ne. }
  destruct (nutrient_summary_ok _ Hok') as [nutr Hx].
  assert (Hlines : format_product_lines py_repr (VDict (<[k := v]> d))
                   = Ok (header_lines py_repr (<[k := v]> d)
                         ++ nutrient_section py_repr nutr))
    by (by apply format_product_lines_spec).
  exists (header_lines py_repr (<[k := v]> d) ++ nutrient_section py_repr nutr).
  split; [exact Hlines|]. split; [|split].
  - unfold format_product_details in Hsame. rewrite Hlines in Hsame.
    cbn [mbind result_bind mret result_ret] in Hsame.
    destruct (format_product_lines py_repr (VDict (delete k d)))
      as [lines'|e] eqn:Hdel; [|discriminate Hsame].
    apply format_product_lines_inv in Hdel as (d' & nutr' & [= <-] & Hx' & ->).
    assert (nutr' = nutr) as ->.
    { unfold nutrient_summary in Hx, Hx'. rewrite py_get_dict in Hx, Hx'.
      rewrite lookup_insert_ne in Hx by done.
      rewrite lookup_delete_ne in Hx' by done. congruence. }
    do 2 f_equal. unfold header_lines, header_text.
    unfold header_keys in Hk.
    repeat (apply elem_of_cons in Hk as [->|Hk];
      [ rewrite !lookup_insert_eq, !lookup_delete_eq, Hv;
        rewrite ?lookup_insert_ne, ?lookup_delete_ne by done; reflexivity
      | ]).
    by apply elem_of_nil in Hk.
  - rewrite lookup_app_l by (apply lookup_lt_Some in Hfield; cbn in *; lia).
    unfold header_lines. rewrite <- Hdash.
    destruct i as [|[|[|[|[|i]]]]]; cbn in Hfield;
      try discriminate Hfield; by injection Hfield as <- <-.
  - unfold format_product_details. by rewrite Hlines.
Qed.

End FormatterProperties.

(** ** The client *)

Section ClientProperties.

Variable requests_get : request → result response.

(** Both client functions return a value only when the response to their
    one request has a status outside 400..599 and a body that decodes to that
    value; a 4xx or 5xx status raises [HTTPError] with the status whatever
    the body is, and a transport failure is passed on unchanged. *)
Theorem client_outcomes (barcode query : string) (page_size : Z) :
  let outcome (req : request) (res : result value) : Prop :=
    (∀ v, res = Ok v →
       ∃ r, requests_get req = Ok r
            ∧ ¬ (400 ≤ status_code r < 600)%Z ∧ json r = Ok v)
    ∧ (∀ r, requests_get req = Ok r → (400 ≤ status_code r < 600)%Z →
         res = Raise (HTTPError (status_code r)))
    ∧ (∀ e, requests_get req = Raise e → res = Raise e) in
  outcome (lookup_request barcode)
    (get_product_by_barcode requests_get barcode None "ru" "ru")
  ∧ outcome (search_request query page_size)
      (search_products requests_get query page_size None "ru" "ru").
Proof.
  cbn zeta. unfold get_product_by_barcode, search_products.
  fold (lookup_request barcode). fold (search_request query page_size).
  split.
  all: match goal with |- context [requests_get ?req] =>
         destruct (requests_get req) as [r|e0] eqn:Hget end.
  all: cbn [mbind result_bind]; unfold raise_for_status.
  all: try (case_bool_decide as Hst; cbn [mbind result_bind]).
  all: repeat split; try congruence.
  all: try (intros v Hv; exists r; by repeat split).
  all: try (intros r' [= <-] ?; done).
  all: try (intros e [= <-]; done).
Qed.

End ClientProperties.

(** ** The handlers *)

Lemma gui_bind_unfold {A B : Type} (m : gui A) (k : A → gui B)
    (w : MainWindow) :
  (m ≫= k) w
  = match m w with
    | (w', Ok a) => k a w'
    | (w', Raise e) => (w', Raise e)
    end.
Proof. reflexivity. Qed.

Lemma py_or_text (d : gmap string value) (k : string) :
  text_or_falsy (default VNone (d !! k)) = true →
  py_or (default VNone (d !! k)) (VStr "") = VStr (shown_text d k).
Proof.
  unfold shown_text, py_or. destruct (d !! k) as [v|]; [|done].
  cbn [default from_option id]. destruct v; cbn [text_or_falsy]; intros Hv.
  all: try (apply negb_true_iff in Hv; by rewrite Hv).
  cbn [truthy]. destruct (String.eqb s "") eqn:Hs; [|done].
  by apply String.eqb_eq in Hs as ->.
Qed.

Section HandlerProperties.

Variable py_repr : value → string.
Variable requests_get : request → result response.

Lemma listable_formattable (p : value) :
  listable p = true → ∃ text, format_product_details py_repr p = Ok text.
Proof.
  intros Hp. pose proof (format_product_details_cases py_repr p) as Hout.
  destruct p as [| | | | | |d]; try discriminate Hp.
  cbn [listable formattable] in *.
  apply andb_true_iff in Hp as [_ Hok]. by rewrite Hok in Hout.
Qed.

Lemma fill_row_listable (row : nat) (p : value) (w : MainWindow) :
  listable p = true →
  ∃ c0 c1 c2 c3,
    row_cells py_repr p = [c0; c1; c2; c3]
    ∧ fill_row py_repr row p w
      = (setItem row 3 c3 (setItem row 2 c2 (setItem row 1 c1
           (setItem row 0 c0 w))), Ok ()).
Proof.
  intros Hp. destruct p as [| | | | | |d]; try discriminate Hp.
  cbn [listable] in Hp.
  apply andb_true_iff in Hp as [Hp Hok].
  apply andb_true_iff in Hp as [Hp Hbrand].
  apply andb_true_iff in Hp as [Hcode Hname].
  destruct (nutrient_summary_ok _ Hok) as [nutr Hx].
  eexists _, _, _, _. split; [reflexivity|].
  unfold kcal_text. rewrite Hx.
  unfold nutrient_summary in Hx. rewrite py_get_dict in Hx.
  cbn [mbind result_bind] in Hx.
  unfold fill_row, mbind, gui_bind, lift, modify.
  rewrite !py_get_dict, !py_or_text by done. cbn beta iota.
  rewrite Hx. by destruct (nutr !! "kcal_100g").
Qed.

Lemma fill_row_raises (row : nat) (p : value) (w : MainWindow) (e : exn) :
  nutrient_summary p = Raise e →
  fill_row py_repr row p w = (w, Raise e).
Proof.
  intros Hx. unfold fill_row, mbind, gui_bind, lift.
  destruct p as [| | | | | |d]; try (by injection Hx as <-).
  rewrite !py_get_dict. cbn beta iota.
  unfold nutrient_summary in Hx. rewrite py_get_dict in Hx.
  cbn [mbind result_bind] in Hx. by rewrite Hx.
Qed.

Lemma fill_rows_listable (products : list value) :
  Forall (λ p, listable p = true) products →
  ∀ (row : nat) (w : MainWindow),
    (∀ i c : nat, (row ≤ i)%nat → table_items w !! (i, c) = None) →
    ∃ w',
      fill_rows py_repr row products w = (w', Ok ())
      ∧ current_products w' = current_products w
      ∧ details_text w' = details_text w
      ∧ table_rows w' = table_rows w
      ∧ dialogs w' = dialogs w
      ∧ ∀ i c : nat,
          table_items w' !! (i, c)
          = if decide (row ≤ i)%nat
            then products !! (i - row) ≫= (λ p, row_cells py_repr p !! c)
            else table_items w !! (i, c).
Proof.
  induction 1 as [|p products Hp _ IH]; intros row w Hfree.
  - exists w. repeat split; [done..|]. intros i c.
    case_decide; [|done]. by rewrite Hfree.
  - destruct (fill_row_listable row p w Hp) as (c0 & c1 & c2 & c3 & Hcells & Hrow).
    set (w1 := setItem row 3 c3 (setItem row 2 c2 (setItem row 1 c1
                 (setItem row 0 c0 w)))) in *.
    assert (Hw1 : ∀ i c : nat, table_items w1 !! (i, c)
                  = if decide (i = row) then [c0; c1; c2; c3] !! c
                    else table_items w !! (i, c)).
    { intros i c. subst w1. cbn [table_items setItem].
      case_decide as Hi.
      - subst i.
        destruct c as [|[|[|[|c]]]];
          repeat first [ rewrite lookup_insert_eq; reflexivity
                       | rewrite lookup_insert_ne by (intros [= ?]; lia) ].
        by apply Hfree.
      - by rewrite !lookup_insert_ne by (intros [= ? ?]; lia). }
    destruct (IH (S row) w1) as (w' & Hrun & Hc & Hd & Hr & Hdl & Hitems).
    { intros i c Hi. rewrite Hw1. case_decide; [lia|]. apply Hfree. lia. }
    exists w'. split.
    { cbn [fill_rows]. rewrite gui_bind_unfold, Hrow. exact Hrun. }
    split; [by rewrite Hc|]. split; [by rewrite Hd|].
    split; [by rewrite Hr|]. split; [by rewrite Hdl|].
    intros i c. rewrite Hitems, Hw1.
    destruct (decide (i = row)) as [->|Hne].
    + rewrite decide_False by lia. rewrite decide_True by lia.
      rewrite Nat.sub_diag. cbn. by rewrite Hcells.
    + case_decide; case_decide; try lia; [|done].
      by replace (i - row) with (S (i - S row)) by lia.
Qed.

Lemma fill_rows_app (row : nat) (front back : list value) (w : MainWindow) :
  fill_rows py_repr row (front ++ back) w
  = match fill_rows py_repr row front w with
    | (w1, Ok _) => fill_rows py_repr (row + length front) back w1
    | (w1, Raise e) => (w1, Raise e)
    end.
Proof.
  revert row w. induction front as [|p front IH]; intros row w.
  - cbn. by rewrite Nat.add_0_r.
  - cbn [app fill_rows length]. rewrite !gui_bind_unfold.
    destruct (fill_row py_repr row p w) as [w1 [[]|e]]; [|done].
    rewrite IH. by replace (S row + length front) with (row + S (length front)) by lia.
Qed.

Lemma not_formattable_raises (p : value) :
  formattable p = false → nutrient_summary p = Raise AttributeError.
Proof.
  destruct p as [| | | | | |d]; try reflexivity.
  cbn [formattable]. apply nutrient_summary_bad.
Qed.

(** What [search_by_name] does with a list that opens with listable
    records, up to the end of the list or to the first record that cannot be
    summarised. *)
Lemma search_by_name_rows (name : string) (st : Z)
    (body : gmap string value) (front back : list value) (w : MainWindow) :
  requests_get (search_request name 10)
  = Ok {| status_code := st; json := Ok (VDict body) |} →
  ¬ (400 ≤ st < 600)%Z →
  body !! "products" = Some (VList (front ++ back)) →
  front ++ back ≠ [] →
  Forall (λ p, listable p = true) front →
  ∃ w1,
    search_by_name py_repr requests_get name w
    = fill_rows py_repr (length front) back w1
    ∧ current_products w1 = VList (front ++ back)
    ∧ table_rows w1 = length (front ++ back)
    ∧ details_text w1 = ""
    ∧ dialogs w1 = dialogs w
    ∧ ∀ i c : nat,
        table_items w1 !! (i, c)
        = front !! i ≫= (λ p, row_cells py_repr p !! c).
Proof.
  intros Hget Hst Hp Hne Hfront.
  pose proof (search_products_ok _ _ _ _ _ Hget Hst) as Hbody.
  set (w0 := setRowCount (length (front ++ back))
               (set_current_products (VList (front ++ back))
                  (set_current_products (VList []) (cleared w)))).
  destruct (fill_rows_listable front Hfront 0 w0)
    as (w1 & Hrun & Hc & Hd & Hr & Hdl & Hitems).
  { intros i c _. subst w0. cbn. by rewrite !map_filter_empty. }
  exists w1. split.
  { unfold search_by_name, mbind, gui_bind, modify, lift. cbn beta iota.
    rewrite Hbody, py_get_dict, Hp. cbn [default from_option id truthy].
    rewrite bool_decide_eq_false_2 by done. cbn [negb py_len py_iter].
    fold (cleared w). fold w0.
    rewrite (fill_rows_app 0 front back w0), Hrun. reflexivity. }
  split; [by rewrite Hc|]. split; [by rewrite Hr|].
  split; [by rewrite Hd|]. split; [by rewrite Hdl|].
  intros i c. rewrite Hitems. rewrite decide_True by lia.
  by rewrite Nat.sub_0_r.
Qed.

(** A search that finds records the table can show stores the list, gives
    the table one row per record and fills in each row the code, the name,
    the brand (empty when missing or falsy) and the text of [kcal_100g]
    (empty when the summary lacks it).  There is no other cell, no dialog,
    and the details pane is empty. *)
Theorem search_by_name_fills_table (name : string) (st : Z)
    (body : gmap string value) (products : list value) (w : MainWindow) :
  requests_get (search_request name 10)
  = Ok {| status_code := st; json := Ok (VDict body) |} →
  ¬ (400 ≤ st < 600)%Z →
  body !! "products" = Some (VList products) →
  products ≠ [] →
  Forall (λ p, listable p = true) products →
  ∃ w',
    search_by_name py_repr requests_get name w = (w', Ok ())
    ∧ current_products w' = VList products
    ∧ table_rows w' = length products
    ∧ details_text w' = ""
    ∧ dialogs w' = dialogs w
    ∧ ∀ i c : nat,
        table_items w' !! (i, c)
        = products !! i ≫= (λ p, row_cells py_repr p !! c).
Proof.
  intros Hget Hst Hp Hne Hall.
  destruct (search_by_name_rows name st body products [] w)
    as (w1 & Hrun & Hfacts); rewrite ?app_nil_r; try done.
  rewrite app_nil_r in Hfacts. exists w1. split; [|done].
  by rewrite Hrun.
Qed.

(** A record of the list that cannot be summarised (one that is not a dict,
    or whose [nutriments] is not a dict) stops the search with
    [AttributeError] after the list has been stored and the rows counted:
    the rows before it are filled, its own row and the rows after it stay
    empty. *)
Theorem search_by_name_bad_element (name : string) (st : Z)
    (body : gmap string value) (good rest : list value) (bad : value)
    (w : MainWindow) :
  requests_get (search_request name 10)
  = Ok {| status_code := st; json := Ok (VDict body) |} →
  ¬ (400 ≤ st < 600)%Z →
  body !! "products" = Some (VList (good ++ bad :: rest)) →
  Forall (λ p, listable p = true) good →
  formattable bad = false →
  ∃ w',
    search_by_name py_repr requests_get name w = (w', Raise AttributeError)
    ∧ current_products w' = VList (good ++ bad :: rest)
    ∧ table_rows w' = length (good ++ bad :: rest)
    ∧ details_text w' = ""
    ∧ dialogs w' = dialogs w
    ∧ ∀ i c : nat,
        table_items w' !! (i, c)
        = good !! i ≫= (λ p, row_cells py_repr p !! c).
Proof.
  intros Hget Hst Hp Hgood Hbad.
  destruct (search_by_name_rows name st body good (bad :: rest) w)
    as (w1 & Hrun & Hfacts); try done.
  { by destruct good. }
  exists w1. split; [|done]. rewrite Hrun. cbn [fill_rows].
  rewrite gui_bind_unfold.
  by rewrite (fill_row_raises _ _ _ _ (not_formattable_raises _ Hbad)).
Qed.

(** After such a search, a double click on a row shows the formatted
    details of the record of that row, taken from the stored list. *)
Theorem search_then_double_click (name : string) (st : Z)
    (body : gmap string value) (products : list value) (w : MainWindow) :
  requests_get (search_request name 10)
  = Ok {| status_code := st; json := Ok (VDict body) |} →
  ¬ (400 ≤ st < 600)%Z →
  body !! "products" = Some (VList products) →
  products ≠ [] →
  Forall (λ p, listable p = true) products →
  ∃ w',
    search_by_name py_repr requests_get name w = (w', Ok ())
    ∧ ∀ (i : nat) (p : value) (column : Z),
        products !! i = Some p →
        ∃ text,
          format_product_details py_repr p = Ok text
          ∧ on_table_double_clicked py_repr (Z.of_nat i) column w'
            = (setPlainText text w', Ok ()).
Proof.
  intros Hget Hst Hp Hne Hall.
  destruct (search_by_name_rows name st body products [] w)
    as (w1 & Hrun & Hcur & _); rewrite ?app_nil_r; try done.
  rewrite app_nil_r in Hcur. exists w1. split; [by rewrite Hrun|].
  intros i p column Hi.
  assert (Hlist : listable p = true).
  { rewrite Forall_forall in Hall. apply Hall. by eapply list_elem_of_lookup_2. }
  destruct (listable_formattable _ Hlist) as [text Htext].
  exists text. split; [done|].
  unfold on_table_double_clicked. rewrite bool_decide_eq_true_2 by lia.
  unfold mbind, gui_bind, read, lift, modify. cbn beta iota.
  rewrite Hcur. cbn [py_len].
  rewrite bool_decide_eq_true_2 by (apply lookup_lt_Some in Hi; lia).
  cbn [py_index]. by rewrite Nat2Z.id, Hi, Htext.
Qed.

(** A lookup never touches the stored result list and always leaves the
    table empty.  It shows at most one dialog, "not found", and then
    returns with an empty details pane; when it raises, the details pane is
    empty and no dialog was shown. *)
Theorem search_by_barcode_frame (barcode : string) (w : MainWindow) :
  let '(w', r) := search_by_barcode py_repr requests_get barcode w in
  current_products w' = current_products w
  ∧ table_rows w' = 0
  ∧ table_items w' = ∅
  ∧ (dialogs w' = dialogs w
     ∨ dialogs w' = dialogs w ++ [Information "Результат" "Продукт не найден."]
       ∧ details_text w' = "" ∧ r = Ok ())
  ∧ (∀ e, r = Raise e → details_text w' = "" ∧ dialogs w' = dialogs w).
Proof.
  unfold search_by_barcode, mbind, gui_bind, modify, lift. cbn beta iota.
  destruct (get_product_by_barcode _ _ _ _ _) as [data|e]; cbn beta iota.
  2: { cbn. rewrite map_filter_empty. repeat split; auto. }
  destruct (py_get data "product" VNone) as [product|e]; cbn beta iota.
  2: { cbn. rewrite map_filter_empty. repeat split; auto. }
  destruct (truthy product); cbn [negb]; cbn beta iota.
  2: { cbn. rewrite map_filter_empty. repeat split; auto. discriminate. }
  destruct (format_product_details py_repr product) as [details|e];
    cbn; rewrite map_filter_empty; repeat split; auto. discriminate.
Qed.

(** A body whose [product] entry is null or empty is treated like one
    without the entry: "not found", and nothing is formatted. *)
Theorem search_by_barcode_falsy_product (barcode : string) (st : Z)
    (body : gmap string value) (w : MainWindow) :
  requests_get (lookup_request barcode)
  = Ok {| status_code := st; json := Ok (VDict body) |} →
  ¬ (400 ≤ st < 600)%Z →
  truthy (default VNone (body !! "product")) = false →
  search_by_barcode py_repr requests_get barcode w
  = (information "Результат" "Продукт не найден." (cleared w), Ok ()).
Proof.
  intros Hget Hst Hfalsy.
  pose proof (get_product_by_barcode_ok _ _ _ _ Hget Hst) as Hbody.
  unfold search_by_barcode, cleared, mbind, gui_bind, modify, lift.
  cbn beta iota. rewrite Hbody, py_get_dict. cbn beta iota.
  by rewrite Hfalsy.
Qed.

(** When the client raises, each search handler passes the exception on
    with the view already cleared; [search_by_name] has by then also
    replaced the stored result list by the empty list, so the results of the
    search before are gone. *)
Theorem search_failure_clears (query : string) (w : MainWindow) (e : exn) :
  (get_product_by_barcode requests_get query None "ru" "ru" = Raise e →
   search_by_barcode py_repr requests_get query w = (cleared w, Raise e))
  ∧ (search_products requests_get query 10 None "ru" "ru" = Raise e →
     search_by_name py_repr requests_get query w
     = (set_current_products (VList []) (cleared w), Raise e)
     ∧ ∀ row column,
         on_table_double_clicked py_repr row column
           (set_current_products (VList []) (cleared w))
         = (set_current_products (VList []) (cleared w), Ok ())).
Proof.
  split.
  - intros Hraise. unfold search_by_barcode, cleared, mbind, gui_bind, modify, lift.
    cbn beta iota. by rewrite Hraise.
  - intros Hraise. split.
    + unfold search_by_name, cleared, mbind, gui_bind, modify, lift.
      cbn beta iota. by rewrite Hraise.
    + intros row column. unfold on_table_double_clicked.
      case_bool_decide; [|done].
      unfold mbind, gui_bind, read, lift. cbn beta iota.
      cbn [current_products set_current_products py_len length].
      by rewrite bool_decide_eq_false_2 by lia.
Qed.

(** A double click on a row outside the stored list, negative rows
    included, changes nothing and raises nothing. *)
Theorem double_click_out_of_range (w : MainWindow) (products : list value)
    (row column : Z) :
  current_products w = VList products →
  (row < 0 ∨ Z.of_nat (length products) ≤ row)%Z →
  on_table_double_clicked py_repr row column w = (w, Ok ()).
Proof.
  intros Hcur Hrow. unfold on_table_double_clicked.
  case_bool_decide; [|done].
  unfold mbind, gui_bind, read, lift. cbn beta iota.
  rewrite Hcur. cbn [py_len].
  by rewrite bool_decide_eq_false_2 by lia.
Qed.

(** A double click writes to the details pane only: the stored list, the
    table and the dialogs stay as they are, and when the handler raises the
    whole window does. *)
Theorem double_click_frame (row column : Z) (w : MainWindow) :
  let '(w', r) := on_table_double_clicked py_repr row column w in
  current_products w' = current_products w
  ∧ table_rows w' = table_rows w
  ∧ table_items w' = table_items w
  ∧ dialogs w' = dialogs w
  ∧ (∀ e, r = Raise e → w' = w).
Proof.
  unfold on_table_double_clicked. case_bool_decide; [|by repeat split].
  unfold mbind, gui_bind, read, lift, modify. cbn beta iota.
  destruct (py_len (current_products w)) as [n|e]; cbn beta iota;
    [|by repeat split].
  case_bool_decide; [|by repeat split]. cbn beta iota.
  destruct (py_index _ _) as [product|e]; cbn beta iota; [|by repeat split].
  destruct (format_product_details py_repr product) as [details|e];
    cbn beta iota; by repeat split.
Qed.

Lemma fill_row_frame (row : nat) (p : value) (w : MainWindow) :
  let '(w', _) := fill_row py_repr row p w in
  current_products w' = current_products w
  ∧ details_text w' = details_text w
  ∧ table_rows w' = table_rows w
  ∧ dialogs w' = dialogs w.
Proof.
  unfold fill_row, mbind, gui_bind, lift, modify. cbn beta iota.
  destruct (py_get p "code" VNone); cbn beta iota; [|done].
  destruct (py_get p "product_name" VNone); cbn beta iota; [|done].
  destruct (py_get p "brands" VNone); cbn beta iota; [|done].
  destruct (py_get p "nutriments" (VDict ∅)); cbn beta iota; [|done].
  destruct (extract_kcal _); cbn beta iota; done.
Qed.

Lemma fill_rows_frame (products : list value) (row : nat) (w : MainWindow) :
  let '(w', _) := fill_rows py_repr row products w in
  current_products w' = current_products w
  ∧ details_text w' = details_text w
  ∧ table_rows w' = table_rows w
  ∧ dialogs w' = dialogs w.
Proof.
  revert row w. induction products as [|p products IH]; intros row w; [done|].
  cbn [fill_rows]. rewrite gui_bind_unfold.
  pose proof (fill_row_frame row p w) as Hrow.
  destruct (fill_row py_repr row p w) as [w1 [[]|e]]; [|done].
  specialize (IH (S row) w1).
  destruct (fill_rows py_repr (S row) products w1) as [w2 r].
  destruct Hrow as (? & ? & ? & ?), IH as (? & ? & ? & ?).
  repeat split; congruence.
Qed.

(** Whatever the network answers and however the search ends,
    [search_by_name] leaves the details pane empty, shows no dialog but
    "nothing found", and stores either the empty list or the [products]
    entry of the body it has just received: never the list of an earlier
    search. *)
Theorem search_by_name_invariant (name : string) (w : MainWindow) :
  let '(w', r) := search_by_name py_repr requests_get name w in
  details_text w' = ""
  ∧ (current_products w' = VList []
     ∨ ∃ body,
         search_products requests_get name 10 None "ru" "ru" = Ok body
         ∧ py_get body "products" (VList []) = Ok (current_products w'))
  ∧ (dialogs w' = dialogs w
     ∨ dialogs w' = dialogs w ++ [Information "Результат" "Ничего не найдено."]
       ∧ r = Ok ()).
Proof.
  unfold search_by_name, mbind, gui_bind, modify, lift. cbn beta iota.
  destruct (search_products _ _ _ _ _ _) as [body|e]; cbn beta iota;
    [|by repeat split; auto].
  destruct (py_get body "products" (VList [])) as [products|e] eqn:Hp;
    cbn beta iota; [|by repeat split; auto].
  destruct (truthy products); cbn [negb]; cbn beta iota;
    [|by repeat split; auto].
  destruct (py_len products) as [n|e]; cbn beta iota.
  2: { cbn. repeat split; eauto. }
  destruct (py_iter products) as [items|e]; cbn beta iota.
  2: { cbn. repeat split; eauto. }
  match goal with |- context [fill_rows py_repr 0 items ?w0] =>
    pose proof (fill_rows_frame items 0 w0) as Hframe;
    destruct (fill_rows py_repr 0 items w0) as [w' r]
  end.
  destruct Hframe as (Hc & Hd & _ & Hdl). cbn in Hc, Hd, Hdl.
  rewrite Hc, Hd, Hdl. repeat split; eauto.
Qed.

End HandlerProperties.

(** ** Instances of the further properties *)

Lemma extract_kcal_ignores_other_keys_witness :
  extract_kcal (VDict (<["salt_100g" := VInt 1]> cola_nutriments))
  = extract_kcal (VDict cola_nutriments).
Proof.
  apply extract_kcal_ignores_other_keys. intros k Hk.
  unfold source_keys in Hk. cbn in Hk.
  repeat (apply elem_of_cons in Hk as [->|Hk]; [vm_compute; reflexivity|]).
  by apply elem_of_nil in Hk.
Defined.

Lemma extract_kcal_values_from_source_witness :
  VInt 139 ≠ VNone
  ∧ ∃ src, src ∈ source_keys ∧ cola_nutriments !! src = Some (VInt 139).
Proof.
  apply (extract_kcal_values_from_source cola_nutriments cola_summary
           "kcal_serving").
  - vm_compute. reflexivity.
  - vm_compute. reflexivity.
Defined.

Lemma extract_kcal_empty_iff_witness :
  (∅ : gmap string value) = ∅ ↔
    truthy (default VNone
              (({[ "energy-kcal_100g" := VInt 0 ]} : gmap string value)
                 !! "energy-kcal_100g")) = false
    ∧ present {[ "energy-kcal_100g" := VInt 0 ]} "energy-kcal_value" = None
    ∧ ∀ src dst, (src, dst) ∈ plain_fields →
        present {[ "energy-kcal_100g" := VInt 0 ]} src = None.
Proof.
  apply (extract_kcal_empty_iff {[ "energy-kcal_100g" := VInt 0 ]} ∅).
  vm_compute. reflexivity.
Defined.

Lemma format_line_count_witness :
  ∃ lines,
    format_product_lines sample_repr (VDict cola) = Ok lines
    ∧ (8 ≤ length lines ≤ 17)%nat.
Proof.
  eexists. split; [vm_compute; reflexivity|].
  apply (format_line_count sample_repr (VDict cola)).
  vm_compute. reflexivity.
Defined.

Lemma format_ignores_other_keys_witness :
  format_product_details sample_repr
    (VDict (<["ecoscore_grade" := VStr "b"]> cola))
  = format_product_details sample_repr (VDict cola).
Proof.
  apply format_ignores_other_keys. intros k Hk.
  unfold read_keys, header_keys in Hk. cbn in Hk.
  repeat (apply elem_of_cons in Hk as [->|Hk]; [vm_compute; reflexivity|]).
  by apply elem_of_nil in Hk.
Defined.

Lemma format_serving_only_witness :
  format_product_lines sample_repr (VDict serving_only)
  = Ok [ "Название: —"; "Бренд: —"; "Штрихкод: —"; "Упаковка: —";
         "Порция: —"; ""; "Питательные вещества:";
         ""; "На порцию:"; "  Белок на порцию: 7" ].
Proof.
  destruct (format_serving_only sample_repr (VDict serving_only)
              serving_only_summary) as (d & Hd & Hlines).
  - vm_compute. reflexivity.
  - vm_compute. reflexivity.
  - vm_compute. reflexivity.
  - injection Hd as <-. rewrite Hlines. vm_compute. reflexivity.
Defined.

Lemma no_data_line_iff_witness :
  no_data_line ∈ [ "Название: Water"; "Бренд: —"; "Штрихкод: —";
                   "Упаковка: —"; "Порция: —"; "";
                   "Питательные вещества:"; "  данные о БЖУ не найдены" ]
  ↔ (∅ : gmap string value) = ∅.
Proof.
  apply (no_data_line_iff sample_repr (VDict water) ∅).
  - vm_compute. reflexivity.
  - vm_compute. reflexivity.
Defined.

Lemma search_by_name_fills_table_witness :
  ∃ w',
    search_by_name sample_repr (answering (VDict search_body)) "cola" init
    = (w', Ok ())
    ∧ current_products w' = VList [ VDict cola; VDict curd ]
    ∧ table_rows w' = 2
    ∧ table_items w' !! (0, 0) = Some (VStr "5449000000996")
    ∧ table_items w' !! (0, 1) = Some (VStr "Coca-Cola")
    ∧ table_items w' !! (0, 3) = Some (VStr "42")
    ∧ table_items w' !! (1, 3) = Some (VStr "")
    ∧ table_items w' !! (2, 0) = None.
Proof.
  destruct (search_by_name_fills_table sample_repr
              (answering (VDict search_body)) "cola" 200 search_body
              [ VDict cola; VDict curd ] init)
    as (w' & Hrun & Hcur & Hrows & _ & _ & Hitems).
  - reflexivity.
  - lia.
  - vm_compute. reflexivity.
  - discriminate.
  - repeat constructor; vm_compute; reflexivity.
  - exists w'. rewrite !Hitems.
    repeat split; try assumption; vm_compute; reflexivity.
Defined.

Lemma search_by_name_bad_element_witness :
  ∃ w',
    search_by_name sample_repr (answering (VDict broken_search_body)) "cola"
      init
    = (w', Raise AttributeError)
    ∧ current_products w' = VList [ VDict cola; VNone; VDict curd ]
    ∧ table_rows w' = 3
    ∧ table_items w' !! (0, 1) = Some (VStr "Coca-Cola")
    ∧ table_items w' !! (1, 0) = None
    ∧ table_items w' !! (2, 0) = None.
Proof.
  destruct (search_by_name_bad_element sample_repr
              (answering (VDict broken_search_body)) "cola" 200
              broken_search_body [ VDict cola ] [ VDict curd ] VNone init)
    as (w' & Hrun & Hcur & Hrows & _ & _ & Hitems).
  - reflexivity.
  - lia.
  - vm_compute. reflexivity.
  - repeat constructor; vm_compute; reflexivity.
  - reflexivity.
  - exists w'. rewrite !Hitems.
    repeat split; try assumption; vm_compute; reflexivity.
Defined.

Lemma search_then_double_click_witness :
  ∃ w' text,
    search_by_name sample_repr (answering (VDict search_body)) "cola" init
    = (w', Ok ())
    ∧ format_product_details sample_repr (VDict curd) = Ok text
    ∧ on_table_double_clicked sample_repr 1 0 w'
      = (setPlainText text w', Ok ()).
Proof.
  destruct (search_then_double_click sample_repr
              (answering (VDict search_body)) "cola" 200 search_body
              [ VDict cola; VDict curd ] init)
    as (w' & Hrun & Hclick).
  - reflexivity.
  - lia.
  - vm_compute. reflexivity.
  - discriminate.
  - repeat constructor; vm_compute; reflexivity.
  - destruct (Hclick 1%nat (VDict curd) 0%Z eq_refl) as (text & Htext & Hshow).
    exists w', text. exact (conj Hrun (conj Htext Hshow)).
Defined.

Lemma search_by_barcode_falsy_product_witness :
  search_by_barcode sample_repr (answering (VDict {[ "product" := VDict ∅ ]}))
    "0000000000000" init
  = (information "Результат" "Продукт не найден." (cleared init), Ok ()).
Proof.
  apply (search_by_barcode_falsy_product sample_repr
           (answering (VDict {[ "product" := VDict ∅ ]})) "0000000000000" 200
           {[ "product" := VDict ∅ ]} init).
  - reflexivity.
  - lia.
  - vm_compute. reflexivity.
Defined.

Lemma double_click_out_of_range_witness :
  on_table_double_clicked sample_repr 0 0 init = (init, Ok ()).
Proof.
  apply (double_click_out_of_range sample_repr init [] 0 0).
  - reflexivity.
  - right. cbn. lia.
Defined.

(** ** Instances of the layout and placeholder properties *)

(** C6 as stated fails: a product record whose [nutriments] entry is a text
    makes the formatter raise; it emits no header line and no other. *)
Lemma format_layout_not_every_record :
  format_product_lines sample_repr (VDict milk) = Raise AttributeError
  ∧ format_product_details sample_repr (VDict milk) = Raise AttributeError
  ∧ ¬ ∃ lines, format_product_lines sample_repr (VDict milk) = Ok lines.
Proof.
  assert (H : format_product_lines sample_repr (VDict milk)
              = Raise AttributeError) by (vm_compute; reflexivity).
  split; [exact H|]. split; [vm_compute; reflexivity|].
  intros [lines Hlines]. rewrite H in Hlines. discriminate Hlines.
Qed.

Lemma format_layout_witness :
  ∃ others,
    format_product_lines sample_repr (VDict cola)
    = Ok ([ "Название: Coca-Cola"; "Бренд: —"; "Штрихкод: 5449000000996";
            "Упаковка: —"; "Порция: —"; ""; "Питательные вещества:";
            "  Калории на 100 г: 42"; "  Углеводы на 100 г: 11" ] ++ others)
    ∧ ∀ line, line ∈ others → has_label per_100g_fields line = false.
Proof.
  destruct (format_layout sample_repr (VDict cola))
    as (d & nutr & others & Hd & Hx & Hlines & _ & _ & _ & Hothers).
  - vm_compute. reflexivity.
  - injection Hd as <-. exists others. split; [|exact Hothers].
    assert (nutr = cola_summary) as ->.
    { assert (Hs : nutrient_summary (VDict cola) = Ok cola_summary)
        by (vm_compute; reflexivity).
      rewrite Hs in Hx. by injection Hx as <-. }
    rewrite Hlines. vm_compute. reflexivity.
Defined.

Lemma falsy_header_field_is_dash_witness :
  ∃ lines,
    format_product_lines sample_repr
      (VDict (<["product_name" := VStr ""]> curd)) = Ok lines
    ∧ format_product_lines sample_repr (VDict (delete "product_name" curd))
      = Ok lines
    ∧ lines !! 0 = Some "Название: —".
Proof.
  destruct (falsy_header_field_is_dash sample_repr curd 0 "product_name"
              "Название: " (VStr "")) as (_ & Hdash).
  - reflexivity.
  - reflexivity.
  - destruct Hdash as (lines & Hins & Hdel & Hline & _).
    + vm_compute. reflexivity.
    + exists lines. split; [exact Hins|]. split; [exact Hdel|]. exact Hline.
Defined.
